(** * HealthInsure AI Backend: a model of [backend.py]

    The backend is a set of FastAPI handlers.  Each one builds a prompt,
    sends it to the generative-language service through [call_gemini_api]
    and relays or decodes the answer.  The model below follows the Python
    source function by function:

    - Python [str] values are lists of code points;
    - decoded JSON values are the inductive type [json];
    - exceptions are values of [exn], and a computation either returns or
      raises ([result]);
    - what a handler does to the outside world (reading the upload, opening
      the PDF, posting to the service) is recorded, in order, in a trace of
      [event]s next to its result (the monad [M]);
    - the libraries the source calls ([requests], [fitz], [json], [str] of
      an exception) and the process configuration are the fields of the
      record [env], which every function of the backend takes. *)

From Stdlib Require Import String Ascii DecimalString.
From Stdlib Require Import Strings.Byte.
From Stdlib Require Import List NArith ZArith Lia Bool PrimFloat.
Import ListNotations.

#[local] Set Warnings "-register-all,-abstract-large-number".

Set Implicit Arguments.

(** ** Python strings *)

Definition char := N.
Definition str := list char.

(** An ASCII literal of the source, as a Python string. *)
Definition lit (s : string) : str := map N_of_ascii (list_ascii_of_string s).

(** The same, for literals that contain double quotes: a backquote in [s]
    stands for the double quote (code point 34) of the source text. *)
Definition litq (s : string) : str :=
  map (fun c => if N.eqb c 96 then 34%N else c) (lit s).

Definition str_eqb (a b : str) : bool :=
  if list_eq_dec N.eq_dec a b then true else false.

(** [needle in hay] on strings: substring test. *)
Fixpoint starts_with (p s : str) : bool :=
  match p, s with
  | [], _ => true
  | _ :: _, [] => false
  | a :: p', b :: s' => N.eqb a b && starts_with p' s'
  end.

Fixpoint contains (hay needle : str) : bool :=
  starts_with needle hay ||
  match hay with
  | [] => false
  | _ :: hay' => contains hay' needle
  end.

(** The code points [str.strip()] removes: CPython's [Py_UNICODE_ISSPACE]. *)
Definition isspace (c : char) : bool :=
  (((9 <=? c) && (c <=? 13)) || ((28 <=? c) && (c <=? 32))
   || (c =? 133) || (c =? 160) || (c =? 5760)
   || ((8192 <=? c) && (c <=? 8202))
   || (c =? 8232) || (c =? 8233) || (c =? 8239) || (c =? 8287)
   || (c =? 12288))%N.

Fixpoint lstrip (s : str) : str :=
  match s with
  | [] => []
  | c :: s' => if isspace c then lstrip s' else s
  end.

Definition rstrip (s : str) : str := rev (lstrip (rev s)).

Definition strip (s : str) : str := rstrip (lstrip s).

(** [s[:n]] for a non-negative [n]. *)
Definition slice_to (n : nat) (s : str) : str := firstn n s.

(** [''.join(parts)]. *)
Definition join_empty (parts : list str) : str := concat parts.

(** Truth value of a string: [bool(s)]. *)
Definition str_truthy (s : str) : bool :=
  match s with [] => false | _ :: _ => true end.

(** Truth value of an [Optional[str]]. *)
Definition opt_str_truthy (o : option str) : bool :=
  match o with None => false | Some s => str_truthy s end.

(** ** Decoded JSON values *)

Inductive json :=
| JNull
| JBool (b : bool)
| JInt (z : Z)
| JFloat (f : float)
| JStr (s : str)
| JArr (items : list json)
| JObj (fields : list (str * json)).

Fixpoint dict_get (m : list (str * json)) (k : str) : option json :=
  match m with
  | [] => None
  | (k', v) :: m' => if str_eqb k' k then Some v else dict_get m' k
  end.

(** [d[k] = v] on a dict: replaces the value of an existing key in place,
    appends a new key. *)
Fixpoint dict_set (m : list (str * json)) (k : str) (v : json)
  : list (str * json) :=
  match m with
  | [] => [(k, v)]
  | (k', v') :: m' =>
      if str_eqb k' k then (k', v) :: m' else (k', v') :: dict_set m' k v
  end.

(** Truth value of a decoded value: [bool(v)]. *)
Definition truthy (v : json) : bool :=
  match v with
  | JNull => false
  | JBool b => b
  | JInt z => negb (Z.eqb z 0)
  | JFloat f => negb (PrimFloat.eqb f 0%float)
  | JStr s => str_truthy s
  | JArr l => match l with [] => false | _ :: _ => true end
  | JObj m => match m with [] => false | _ :: _ => true end
  end.

(** ** Exceptions *)

(** The classes below [requests.exceptions.RequestException]. *)
Inductive requests_error :=
| ConnectionError
| Timeout
| HTTPError
| InvalidJSONError
| OtherRequestError.

Inductive exn :=
| HTTPException (status_code : Z) (detail : str)
| RequestException (cls : requests_error) (msg : str)
| JSONDecodeError
| KeyError (key : json)
| IndexError
| TypeError
| AttributeError
| RecursionError
| ValueError
| OtherException (msg : str).

Inductive result (A : Type) :=
| Ok (a : A)
| Raise (e : exn).
Arguments Ok {A} a.
Arguments Raise {A} e.

(** ** Effects *)

Definition bytes := list byte.

Record http_request := mk_request {
  req_url : str;
  req_headers : list (str * str);
  req_json : json;
  req_timeout : Z
}.

Record http_response := mk_response {
  status_code : Z;
  reason : str;
  text : str
}.

(** What a handler does to the outside world. *)
Inductive event :=
| EvRead (contents : bytes)
| EvFitzOpen (stream : bytes)
| EvPost (rq : http_request).

Definition is_post (e : event) : bool :=
  match e with EvPost _ => true | _ => false end.

Definition is_fitz_open (e : event) : bool :=
  match e with EvFitzOpen _ => true | _ => false end.

(** A computation: its result and the events it performed, in order. *)
Definition M (A : Type) : Type := result A * list event.

Definition ret {A} (a : A) : M A := (Ok a, []).

Definition raise {A} (e : exn) : M A := (Raise e, []).

Definition emit (e : event) : M unit := (Ok tt, [e]).

Definition bind {A B} (m : M A) (k : A -> M B) : M B :=
  match m with
  | (Ok a, t) => let (r, t') := k a in (r, t ++ t')
  | (Raise e, t) => (Raise e, t)
  end.

(** [try: body  except Exception as e: handler e]. *)
Definition try_except {A} (body : M A) (handler : exn -> M A) : M A :=
  match body with
  | (Ok a, t) => (Ok a, t)
  | (Raise e, t) => let (r, t') := handler e in (r, t ++ t')
  end.

(** A pure step that may raise. *)
Definition lift {A} (r : result A) : M A := (r, []).

Declare Scope py_scope.
Delimit Scope py_scope with py.
Notation "x <- m ;; k" := (bind m (fun x => k))
  (at level 61, m at next level, right associativity) : py_scope.
Notation "m ;;; k" := (bind m (fun _ => k))
  (at level 61, right associativity) : py_scope.
Open Scope py_scope.

Definition outcome {A} (m : M A) : result A := fst m.
Definition trace {A} (m : M A) : list event := snd m.

(** The number of requests a computation sent to the service. *)
Definition posts {A} (m : M A) : nat := length (filter is_post (trace m)).

(** A computation that touches nothing outside. *)
Definition silent {A} (m : M A) : Prop := trace m = [].

(** ** Operations on decoded values *)

(** [key in v]. *)
Definition py_in (key : str) (v : json) : result bool :=
  match v with
  | JObj m => Ok (match dict_get m key with Some _ => true | None => false end)
  | JArr l =>
      Ok (existsb (fun x => match x with JStr s => str_eqb s key | _ => false end) l)
  | JStr s => Ok (contains s key)
  | _ => Raise TypeError
  end.

(** [v[key]] for a string key. *)
Definition getitem (v : json) (key : str) : result json :=
  match v with
  | JObj m =>
      match dict_get m key with
      | Some x => Ok x
      | None => Raise (KeyError (JStr key))
      end
  | _ => Raise TypeError
  end.

(** [v[0]]. *)
Definition getitem0 (v : json) : result json :=
  match v with
  | JArr l => match l with x :: _ => Ok x | [] => Raise IndexError end
  | JStr s => match s with c :: _ => Ok (JStr [c]) | [] => Raise IndexError end
  | JObj _ => Raise (KeyError (JInt 0))
  | _ => Raise TypeError
  end.

(** [v.get(key, default)]. *)
Definition get_default (v : json) (key : str) (default : json) : result json :=
  match v with
  | JObj m =>
      match dict_get m key with
      | Some x => Ok x
      | None => Ok default
      end
  | _ => Raise AttributeError
  end.

(** ** Text helpers of the templates *)

Definition nl : str := [10%N].

(** The lines of a triple-quoted literal, joined by newlines. *)
Fixpoint unlines (ls : list str) : str :=
  match ls with
  | [] => []
  | [l] => l
  | l :: ls' => l ++ nl ++ unlines ls'
  end.

(** [str(n)] for an integer. *)
Definition str_of_Z (z : Z) : str := lit (NilZero.string_of_int (Z.to_int z)).

(** ** Uploaded files *)

Record upload_file := mk_upload {
  filename : option str;
  content_type : option str;
  file_contents : bytes
}.

Definition opt_json (o : option str) : json :=
  match o with None => JNull | Some s => JStr s end.

(** [await file.read()]. *)
Definition file_read (file : upload_file) : M bytes :=
  emit (EvRead (file_contents file)) ;;; ret (file_contents file).

(** ** The HTTP layer of the framework *)

(** The status FastAPI answers with when an exception leaves a handler:
    the one carried by an [HTTPException], 500 for any other. *)
Definition exn_status (e : exn) : Z :=
  match e with
  | HTTPException s _ => s
  | _ => 500
  end.

(** [requests]: the message [raise_for_status] builds, empty for a status
    below 400 or above 599. *)
Definition http_error_msg (url reason : str) (code : Z) : str :=
  if (400 <=? code)%Z && (code <? 500)%Z then
    str_of_Z code ++ lit " Client Error: " ++ reason ++ lit " for url: " ++ url
  else if (500 <=? code)%Z && (code <? 600)%Z then
    str_of_Z code ++ lit " Server Error: " ++ reason ++ lit " for url: " ++ url
  else [].

(** [response.raise_for_status()]; [url] is the address the response came
    from. *)
Definition raise_for_status (url : str) (r : http_response) : result unit :=
  let msg := http_error_msg url (reason r) (status_code r) in
  if str_truthy msg then Raise (RequestException HTTPError msg) else Ok tt.

(** What [requests.post] does: it raises one of its own exceptions or
    returns the response of the service. *)
Inductive post_outcome :=
| PostRaises (cls : requests_error) (msg : str)
| PostReturns (r : http_response).

(** ** The decoder *)

(** The exceptions [json.loads] raises on a string besides
    [JSONDecodeError]: [RecursionError] when the text nests too deep, and
    [ValueError] when an integer has more digits than the interpreter
    converts. *)
Inductive decoder_error :=
| TooDeep
| TooManyDigits.

Definition decoder_exn (d : decoder_error) : exn :=
  match d with
  | TooDeep => RecursionError
  | TooManyDigits => ValueError
  end.

(** What [json.loads] does on a string: it returns the decoded value, or
    raises [JSONDecodeError], or raises one of the exceptions above. *)
Inductive loads_outcome :=
| Decoded (v : json)
| Undecodable
| DecoderFails (d : decoder_error).

(** ** Requests of the six routes *)

Inductive request :=
| PostAsk (question : str) (document_context : option str)
| PostUploadDoc (file : upload_file)
| PostCheckClaim (claim_type document_context : str) (bill : option upload_file)
| PostRecommendPolicy
    (user_age user_gender health_conditions coverage budget : str)
| GetFindHospitals (location : str)
| GetAnalytics.

(** The process configuration and the libraries the source calls. *)
Record env := mk_env {
  (** [os.getenv("GEMINI_API_KEY")]. *)
  GEMINI_API_KEY : option str;
  (** The network: the outcome of posting a request. *)
  network : http_request -> post_outcome;
  (** [json.loads] on a string; [response.json()] decodes the body with
      the same decoder. *)
  json_loads : str -> loads_outcome;
  (** The message of the decoding error of a text. *)
  json_error_msg : str -> str;
  (** [str(e)] of an exception. *)
  exn_str : exn -> str;
  (** [repr] of a decoded value that is not a string. *)
  py_repr : json -> str;
  (** PyMuPDF: the pages of a document and the text of a page. *)
  page : Type;
  get_text : page -> str;
  fitz_open : bytes -> result (list page)
}.

Section Backend.

Variable E : env.

(** How an f-string renders a decoded value. *)
Definition py_format (v : json) : str :=
  match v with
  | JStr s => s
  | _ => py_repr E v
  end.

(** [requests.post(url, headers=..., json=..., timeout=...)] followed by
    nothing else: the call itself. *)
Definition requests_post (rq : http_request) : M http_response :=
  emit (EvPost rq) ;;;
  match network E rq with
  | PostRaises cls msg => raise (RequestException cls msg)
  | PostReturns r => ret r
  end.

(** [response.json()]: requests catches the [JSONDecodeError] of the
    decoder and raises its own, a [RequestException]; any other exception
    of the decoder passes through. *)
Definition response_json (r : http_response) : result json :=
  match json_loads E (text r) with
  | Decoded v => Ok v
  | Undecodable =>
      Raise (RequestException InvalidJSONError (json_error_msg E (text r)))
  | DecoderFails d => Raise (decoder_exn d)
  end.

(** *** Gemini API helper *)

Definition gemini_url : str :=
  lit "https://generativelanguage.googleapis.com/v1beta/models/gemini-1.5-flash-latest:generateContent".

Definition generation_config (is_json_output : bool) : json :=
  JObj (if is_json_output
        then dict_set [] (lit "response_mime_type") (JStr (lit "application/json"))
        else []).

Definition gemini_body (prompt : str) (is_json_output : bool) : json :=
  JObj [ (lit "contents",
          JArr [ JObj [ (lit "parts", JArr [ JObj [ (lit "text", JStr prompt) ] ]) ] ]);
         (lit "generation_config", generation_config is_json_output) ].

Definition gemini_request (key prompt : str) (is_json_output : bool)
  : http_request :=
  {| req_url := gemini_url;
     req_headers := [ (lit "Content-Type", lit "application/json");
                      (lit "x-goog-api-key", key) ];
     req_json := gemini_body prompt is_json_output;
     req_timeout := 90 |}.

(** The body of the [try] of [call_gemini_api], after the response has
    been decoded. *)
Definition read_candidates (result : json) : M json :=
  has_candidates <- lift (py_in (lit "candidates") result) ;;
  candidates_ok <-
    (if has_candidates : bool
     then c <- lift (getitem result (lit "candidates")) ;; ret (truthy c)
     else ret false) ;;
  if candidates_ok : bool then
    c <- lift (getitem result (lit "candidates")) ;;
    c0 <- lift (getitem0 c) ;;
    content <- lift (getitem c0 (lit "content")) ;;
    parts <- lift (getitem content (lit "parts")) ;;
    p0 <- lift (getitem0 parts) ;;
    lift (getitem p0 (lit "text"))
  else
    has_error <- lift (py_in (lit "error") result) ;;
    if has_error : bool then
      err <- lift (getitem result (lit "error")) ;;
      message <- lift (get_default err (lit "message") (JStr (lit "Unknown error"))) ;;
      raise (HTTPException 500 (lit "Gemini API Error: " ++ py_format message))
    else
      raise (HTTPException 500 (lit "Invalid response structure from Gemini API.")).

Definition call_gemini_api (prompt : str) (is_json_output : bool) : M json :=
  if negb (opt_str_truthy (GEMINI_API_KEY E)) then
    raise (HTTPException 500 (lit "GEMINI_API_KEY not configured."))
  else
    let key := match GEMINI_API_KEY E with Some k => k | None => [] end in
    let rq := gemini_request key prompt is_json_output in
    try_except
      (response <- requests_post rq ;;
       lift (raise_for_status (req_url rq) response) ;;;
       result <- lift (response_json response) ;;
       read_candidates result)
      (fun e =>
         match e with
         | RequestException _ _ =>
             raise (HTTPException 503
                      (lit "Could not connect to AI service: " ++ exn_str E e))
         | _ =>
             raise (HTTPException 500 (lit "Unexpected error: " ++ exn_str E e))
         end).

(** *** Routes *)

(** [json.loads(response_text)]: the argument is whatever
    [call_gemini_api] returned. *)
Definition loads (response_text : json) : result json :=
  match response_text with
  | JStr t =>
      match json_loads E t with
      | Decoded v => Ok v
      | Undecodable => Raise JSONDecodeError
      | DecoderFails d => Raise (decoder_exn d)
      end
  | _ => Raise TypeError
  end.

(** The [try: return json.loads(response_text)
         except json.JSONDecodeError: raise HTTPException(500, ...)]
    that ends every structured handler. *)
Definition loads_or_500 (response_text : json) : M json :=
  try_except (lift (loads response_text))
    (fun e =>
       match e with
       | JSONDecodeError =>
           raise (HTTPException 500 (lit "AI did not return valid JSON."))
       | _ => raise e
       end).

Definition ask_prompt (question : str) (document_context : option str) : str :=
  if opt_str_truthy document_context then
    unlines
      [ [];
        lit "        You are a helpful insurance assistant. A user uploaded a policy and asked:";
        lit "        Context:";
        lit "        ---";
        lit "        " ++ match document_context with Some c => c | None => [] end;
        lit "        ---";
        lit "        Question: " ++ question;
        lit "        Answer:";
        lit "        " ]
  else
    unlines
      [ [];
        lit "        You are a helpful insurance assistant. The user asked a general health insurance question:";
        lit "        Question: " ++ question;
        lit "        Answer:";
        lit "        " ].

Definition ask_question (question : str) (document_context : option str)
  : M json :=
  let prompt := ask_prompt question document_context in
  answer <- call_gemini_api prompt false ;;
  ret (JObj [ (lit "answer", answer) ]).

(** Lines 138-139: open the stream as a PDF, join the text of the pages
    in document order, strip. *)
Definition extract_text (contents : bytes) : M str :=
  emit (EvFitzOpen contents) ;;;
  doc <- lift (fitz_open E contents) ;;
  ret (strip (join_empty (map (get_text E) doc))).

Definition summary_prompt (text : str) : str :=
  lit "Summarize the following insurance policy in bullet points:"
  ++ nl ++ nl ++ slice_to 8000 text.

Definition is_pdf (file : upload_file) : bool :=
  match content_type file with
  | Some t => str_eqb t (lit "application/pdf")
  | None => false
  end.

Definition upload_doc (file : upload_file) : M json :=
  if negb (is_pdf file) then
    raise (HTTPException 400 (lit "Only PDF files are allowed."))
  else
    contents <- file_read file ;;
    try_except
      (text <- extract_text contents ;;
       if negb (str_truthy text) then
         raise (HTTPException 400 (lit "PDF is empty or non-readable."))
       else
         summary <- call_gemini_api (summary_prompt text) false ;;
         ret (JObj [ (lit "status", JStr (lit "success"));
                     (lit "filename", opt_json (filename file));
                     (lit "summary", summary);
                     (lit "full_text", JStr text) ]))
      (fun e =>
         raise (HTTPException 500 (lit "PDF processing error: " ++ exn_str E e))).

Definition check_claim_prompt (claim_type document_context : str)
  (bill : option upload_file) : str :=
  unlines
    [ [];
      lit "    You are an expert insurance claim analyst. Evaluate the following claim based on the policy:";
      [];
      lit "    Context:";
      lit "    ---";
      lit "    " ++ document_context;
      lit "    ---";
      lit "    Claim Type: " ++ claim_type;
      lit "    Bill Attached: "
        ++ (match bill with Some _ => lit "Yes" | None => lit "No" end);
      [];
      lit "    Return JSON with:";
      lit "    - decision: Eligible/Ineligible/More Information Needed";
      lit "    - reason: explanation";
      lit "    - required_documents: list of required documents";
      [];
      lit "    JSON:";
      lit "    " ].

Definition check_claim (claim_type document_context : str)
  (bill : option upload_file) : M json :=
  let prompt := check_claim_prompt claim_type document_context bill in
  response_text <- call_gemini_api prompt true ;;
  loads_or_500 response_text.

(** The rupee sign of the template, U+20B9. *)
Definition rupee : str := [8377%N].

Definition recommend_policy_prompt
  (user_age user_gender health_conditions coverage budget : str) : str :=
  unlines
    [ [];
      lit "    Suggest 2-3 health insurance policies for:";
      lit "    - Age: " ++ user_age;
      lit "    - Gender: " ++ user_gender;
      lit "    - Conditions: " ++ health_conditions;
      lit "    - Coverage: " ++ coverage;
      lit "    - Budget: " ++ rupee ++ budget;
      [];
      lit "    Return JSON with:";
      lit "    recommendations: [";
      lit "      {policy_name, reasoning, key_features (list), estimated_premium}";
      lit "    ]";
      lit "    " ].

Definition recommend_policy
  (user_age user_gender health_conditions coverage budget : str) : M json :=
  let prompt :=
    recommend_policy_prompt user_age user_gender health_conditions
      coverage budget in
  response_text <- call_gemini_api prompt true ;;
  loads_or_500 response_text.

Definition find_hospitals_prompt (location : str) : str :=
  unlines
    [ [];
      litq "    Find up to 5 major cashless network hospitals in `"
        ++ location ++ litq "` (India).";
      lit "    Return JSON with:";
      lit "    hospitals: [{ name, address, specialties (list) }]";
      lit "    " ].

Definition find_hospitals (location : str) : M json :=
  let prompt := find_hospitals_prompt location in
  response_text <- call_gemini_api prompt true ;;
  loads_or_500 response_text.

Definition analytics_prompt : str :=
  unlines
    [ [];
      lit "    Generate realistic health insurance analytics data for an Indian dashboard:";
      [];
      lit "    Return valid JSON:";
      lit "    {";
      litq "      `claim_status_distribution`: {";
      litq "        `labels`: [`Approved`, `Pending`, `Rejected`],";
      litq "        `data`: [int, int, int]";
      lit "      },";
      litq "      `monthly_claims`: {";
      litq "        `labels`: [`March`, `April`, `May`, `June`, `July`, `August`],";
      litq "        `data`: [int, int, int, int, int, int]";
      lit "      },";
      litq "      `key_metrics`: {";
      litq "        `total_claims`: int,";
      litq "        `approval_rate`: float,";
      litq "        `avg_claim_amount`: int";
      lit "      }";
      lit "    }";
      lit "    " ].

Definition get_analytics_data : M json :=
  let prompt := analytics_prompt in
  response_text <- call_gemini_api prompt true ;;
  loads_or_500 response_text.

(** *** The router *)

Definition handle (rq : request) : M json :=
  match rq with
  | PostAsk q c => ask_question q c
  | PostUploadDoc f => upload_doc f
  | PostCheckClaim t c b => check_claim t c b
  | PostRecommendPolicy a g h c b => recommend_policy a g h c b
  | GetFindHospitals l => find_hospitals l
  | GetAnalytics => get_analytics_data
  end.

(** The prompt a request sends to [call_gemini_api], for the routes that
    build it from the request alone. *)
Definition structured_prompt (rq : request) : option str :=
  match rq with
  | PostCheckClaim t c b => Some (check_claim_prompt t c b)
  | PostRecommendPolicy a g h c b => Some (recommend_policy_prompt a g h c b)
  | GetFindHospitals l => Some (find_hospitals_prompt l)
  | GetAnalytics => Some analytics_prompt
  | _ => None
  end.

End Backend.

(** ** Declared response shapes *)

(** The field types the response models of the source use. *)
Inductive shape :=
| TStr
| TList (elem : shape)
| TDict
| TModel (fields : list (str * shape)).

(** A decoded value has a shape: strings for [str], arrays of conforming
    items for [List[...]], objects for [dict], and for a model an object
    with every declared field present and conforming.  This is validation
    without coercion between types; fields the model does not declare are
    allowed. *)
Fixpoint conforms (t : shape) (v : json) {struct t} : bool :=
  match t, v with
  | TStr, JStr _ => true
  | TList t', JArr l => forallb (conforms t') l
  | TDict, JObj _ => true
  | TModel fs, JObj m =>
      (fix all_fields (fs : list (str * shape)) : bool :=
         match fs with
         | [] => true
         | (k, t') :: fs' =>
             match dict_get m k with
             | Some x => conforms t' x
             | None => false
             end && all_fields fs'
         end) fs
  | _, _ => false
  end.

Definition AskResponse : shape := TModel [ (lit "answer", TStr) ].

Definition UploadDocResponse : shape :=
  TModel [ (lit "status", TStr); (lit "filename", TStr);
           (lit "summary", TStr); (lit "full_text", TStr) ].

Definition ClaimCheckResponse : shape :=
  TModel [ (lit "decision", TStr); (lit "reason", TStr);
           (lit "required_documents", TList TStr) ].

Definition PolicyRecommendation : shape :=
  TModel [ (lit "policy_name", TStr); (lit "reasoning", TStr);
           (lit "key_features", TList TStr); (lit "estimated_premium", TStr) ].

Definition RecommendPolicyResponse : shape :=
  TModel [ (lit "recommendations", TList PolicyRecommendation) ].

Definition Hospital : shape :=
  TModel [ (lit "name", TStr); (lit "address", TStr);
           (lit "specialties", TList TStr) ].

Definition FindHospitalsResponse : shape :=
  TModel [ (lit "hospitals", TList Hospital) ].

Definition AnalyticsResponse : shape :=
  TModel [ (lit "claim_status_distribution", TDict);
           (lit "monthly_claims", TDict); (lit "key_metrics", TDict) ].

(** The [response_model] of the route of a request. *)
Definition response_model (rq : request) : shape :=
  match rq with
  | PostAsk _ _ => AskResponse
  | PostUploadDoc _ => UploadDocResponse
  | PostCheckClaim _ _ _ => ClaimCheckResponse
  | PostRecommendPolicy _ _ _ _ _ => RecommendPolicyResponse
  | GetFindHospitals _ => FindHospitalsResponse
  | GetAnalytics => AnalyticsResponse
  end.

(** The status FastAPI answers with: 200 when the handler returns a value
    its [response_model] accepts, 500 when it returns one the model
    rejects, and the status of the exception when it raises. *)
Definition http_status (model : shape) (r : result json) : Z :=
  match r with
  | Ok v => if conforms model v then 200 else 500
  | Raise e => exn_status e
  end.



(** The number of entries of the [hospitals] list of a response. *)
Definition hospitals_count (v : json) : option nat :=
  match v with
  | JObj m =>
      match dict_get m (lit "hospitals") with
      | Some (JArr l) => Some (length l)
      | _ => None
      end
  | _ => None
  end.

(** ** A JSON decoder for examples

    The theorems below hold for any decoder.  The examples run the handlers
    against this one: it reads the fragment of JSON made of objects, arrays,
    strings with the one-letter escapes, integers and the three literals,
    and returns on it the value [json.loads] returns. *)

Module Decoder.

Definition is_ws (c : char) : bool :=
  ((c =? 32) || (c =? 9) || (c =? 10) || (c =? 13))%N.

Definition is_digit (c : char) : bool := ((48 <=? c) && (c <=? 57))%N.

Fixpoint skip_ws (s : str) : str :=
  match s with
  | [] => []
  | c :: s' => if is_ws c then skip_ws s' else s
  end.

Definition unescape (c : char) : option char :=
  (if c =? 34 then Some 34
   else if c =? 92 then Some 92
   else if c =? 47 then Some 47
   else if c =? 98 then Some 8
   else if c =? 102 then Some 12
   else if c =? 110 then Some 10
   else if c =? 114 then Some 13
   else if c =? 116 then Some 9
   else None)%N.

(** The rest of a string after its opening quote. *)
Fixpoint string_body (s : str) (acc : str) : option (str * str) :=
  match s with
  | [] => None
  | c :: r =>
      if (c =? 34)%N then Some (rev acc, r)
      else if (c =? 92)%N then
        match r with
        | [] => None
        | e :: r' =>
            match unescape e with
            | Some x => string_body r' (x :: acc)
            | None => None
            end
        end
      else if (c <? 32)%N then None
      else string_body r (c :: acc)
  end.

Fixpoint digits (s : str) (acc : Z) : Z * str :=
  match s with
  | [] => (acc, [])
  | c :: r =>
      if is_digit c then digits r (acc * 10 + Z.of_N (c - 48))%Z else (acc, s)
  end.

(** An integer; a fraction or an exponent is outside the fragment. *)
Definition integer (s : str) : option (Z * str) :=
  let '(neg, s1) :=
    match s with
    | c :: r => if (c =? 45)%N then (true, r) else (false, s)
    | [] => (false, s)
    end in
  match s1 with
  | c :: r =>
      if is_digit c then
        let '(z, rest) := if (c =? 48)%N then (0%Z, r) else digits s1 0%Z in
        match rest with
        | d :: _ =>
            if ((d =? 46) || (d =? 101) || (d =? 69))%N then None
            else Some (if neg then (- z)%Z else z, rest)
        | [] => Some (if neg then (- z)%Z else z, rest)
        end
      else None
  | [] => None
  end.

Definition literal (word : string) (v : json) (s : str) : option (json * str) :=
  if starts_with (lit word) s
  then Some (v, skipn (length (lit word)) s)
  else None.

Fixpoint value (fuel : nat) (s : str) : option (json * str) :=
  match fuel with
  | O => None
  | S n =>
      match s with
      | [] => None
      | c :: r =>
          if (c =? 34)%N then
            match string_body r [] with
            | Some (x, rest) => Some (JStr x, rest)
            | None => None
            end
          else if (c =? 123)%N then members n r [] true
          else if (c =? 91)%N then elements n r [] true
          else if (c =? 116)%N then literal "true" (JBool true) s
          else if (c =? 102)%N then literal "false" (JBool false) s
          else if (c =? 110)%N then literal "null" JNull s
          else
            match integer s with
            | Some (z, rest) => Some (JInt z, rest)
            | None => None
            end
      end
  end

with elements (fuel : nat) (s : str) (acc : list json) (first : bool)
  : option (json * str) :=
  match fuel with
  | O => None
  | S n =>
      match skip_ws s with
      | [] => None
      | c :: r =>
          if first && (c =? 93)%N then Some (JArr [], r)
          else
            match value n (c :: r) with
            | Some (v, r1) =>
                match skip_ws r1 with
                | d :: r2 =>
                    if (d =? 44)%N then elements n r2 (v :: acc) false
                    else if (d =? 93)%N then Some (JArr (rev (v :: acc)), r2)
                    else None
                | [] => None
                end
            | None => None
            end
      end
  end

with members (fuel : nat) (s : str) (acc : list (str * json)) (first : bool)
  : option (json * str) :=
  match fuel with
  | O => None
  | S n =>
      match skip_ws s with
      | [] => None
      | c :: r =>
          if first && (c =? 125)%N then Some (JObj [], r)
          else if (c =? 34)%N then
            match string_body r [] with
            | Some (k, r1) =>
                match skip_ws r1 with
                | colon :: r2 =>
                    if (colon =? 58)%N then
                      match value n (skip_ws r2) with
                      | Some (v, r3) =>
                          match skip_ws r3 with
                          | d :: r4 =>
                              if (d =? 44)%N
                              then members n r4 (dict_set acc k v) false
                              else if (d =? 125)%N
                              then Some (JObj (dict_set acc k v), r4)
                              else None
                          | [] => None
                          end
                      | None => None
                      end
                    else None
                | [] => None
                end
            | None => None
            end
          else None
      end
  end.

Definition decode (s : str) : option json :=
  match value (S (length s)) (skip_ws s) with
  | Some (v, rest) =>
      match skip_ws rest with
      | [] => Some v
      | _ :: _ => None
      end
  | None => None
  end.

End Decoder.

(** ** Stubbed libraries for the examples

    A stubbed service, a stubbed PDF reader and the rendering of
    exceptions of Starlette ([status: detail]). *)

Module Stub.

Definition render_exn (e : exn) : str :=
  match e with
  | HTTPException s d => str_of_Z s ++ lit ": " ++ d
  | RequestException _ m => m
  | JSONDecodeError => lit "Expecting value"
  | KeyError _ => lit "key"
  | IndexError => lit "list index out of range"
  | TypeError => lit "bad operand type"
  | AttributeError => lit "object has no attribute 'get'"
  | RecursionError => lit "maximum recursion depth exceeded"
  | ValueError => lit "Exceeds the limit (4300 digits) for integer string conversion"
  | OtherException m => m
  end.

Definition render_value (v : json) : str :=
  match v with
  | JNull => lit "None"
  | JBool true => lit "True"
  | JBool false => lit "False"
  | JInt z => str_of_Z z
  | _ => lit "..."
  end.

(** A text as the inside of a JSON string. *)
Fixpoint escape (s : str) : str :=
  match s with
  | [] => []
  | c :: r =>
      (if (c =? 34)%N then [92; 34]
       else if (c =? 92)%N then [92; 92]
       else if (c =? 10)%N then [92; 110]
       else [c])%N ++ escape r
  end.

(** The body of a reply of the service whose first candidate is [t]. *)
Definition gemini_reply (t : str) : str :=
  litq "{`candidates`:[{`content`:{`parts`:[{`text`:`" ++ escape t
  ++ litq "`}]}}]}".

(** A service that answers every request with the text [t]. *)
Definition answering (t : str) (rq : http_request) : post_outcome :=
  PostReturns {| status_code := 200; reason := lit "OK"; text := gemini_reply t |}.

(** A service that answers every request with status 200 and the body
    [body]. *)
Definition replying (body : str) (rq : http_request) : post_outcome :=
  PostReturns {| status_code := 200; reason := lit "OK"; text := body |}.

(** A service that does not answer in time. *)
Definition timing_out (rq : http_request) : post_outcome :=
  PostRaises Timeout (lit "Read timed out.").

(** The answer of a service that rejects every request: status 400 and an
    error message in the body. *)
Definition rejection : http_response :=
  {| status_code := 400;
     reason := lit "Bad Request";
     text := litq "{`error`:{`message`:`API key not valid`}}" |}.

Definition rejecting (rq : http_request) : post_outcome :=
  PostReturns rejection.

(** The number of [[] the text opens before anything else. *)
Fixpoint leading_opens (s : str) : nat :=
  match s with
  | [] => 0
  | c :: r => if (c =? 91)%N then S (leading_opens r) else 0
  end.

(** Whether the text is an integer literal and nothing else. *)
Definition only_digits (s : str) : bool :=
  match s with
  | [] => false
  | c :: r =>
      forallb Decoder.is_digit (if (c =? 45)%N then r else s)
  end.

(** [json.loads] for the examples: the decoder above, with the two limits
    of the interpreter where a text meets them at its start (more than
    1000 arrays opened in a row, an integer of more than 4300 digits). *)
Definition loads_text (s : str) : loads_outcome :=
  if 1000 <? leading_opens (Decoder.skip_ws s) then DecoderFails TooDeep
  else if only_digits s && (4300 <? length s) then DecoderFails TooManyDigits
  else
    match Decoder.decode s with
    | Some v => Decoded v
    | None => Undecodable
    end.

(** An environment: a key, a service, and a PDF reader that finds the
    given page texts in every stream. *)
Definition make (key : option str) (net : http_request -> post_outcome)
  (pages : list str) : env :=
  {| GEMINI_API_KEY := key;
     network := net;
     json_loads := loads_text;
     json_error_msg := fun _ => lit "Expecting value";
     exn_str := render_exn;
     py_repr := render_value;
     page := str;
     get_text := fun p => p;
     fitz_open := fun _ => Ok pages |}.

Definition key : option str := Some (lit "secret").

Definition pdf (name : string) : upload_file :=
  {| filename := Some (lit name);
     content_type := Some (lit "application/pdf");
     file_contents := [x25; x50; x44; x46] |}.




Definition claim_text : str :=
  litq "{`decision`:`Eligible`,`reason`:`Covered`,`required_documents`:[`Bill`]}".

Definition claim_value : json :=
  JObj [ (lit "decision", JStr (lit "Eligible"));
         (lit "reason", JStr (lit "Covered"));
         (lit "required_documents", JArr [ JStr (lit "Bill") ]) ].

(** The environments and inputs of the examples. *)

Definition no_key_env : env := make None rejecting [].

Definition copay_env : env := make key (answering (lit "Copay is...")) [].

Definition timeout_env : env := make key timing_out [].

Definition quota_env : env :=
  make key (replying (litq "{`error`:{`message`:`Quota exceeded`}}")) [].

Definition rejecting_env : env := make key rejecting [].

Definition blank_env : env :=
  make key (answering (lit "- nothing")) [lit "  "; nl].

Definition policy_pages : list str :=
  [lit " Policy A"; lit " covers X. " ++ nl].

Definition policy_env : env :=
  make key (answering (lit "- covers X")) policy_pages.

Definition policy_response : json :=
  JObj [ (lit "status", JStr (lit "success"));
         (lit "filename", JStr (lit "policy.pdf"));
         (lit "summary", JStr (lit "- covers X"));
         (lit "full_text", JStr (lit "Policy A covers X.")) ].

Definition claim_env : env := make key (answering claim_text) [].

Definition claim_request : request :=
  PostCheckClaim (lit "Hospitalization") (lit "Covers hospital stays.") None.



Definition text_file : upload_file :=
  {| filename := Some (lit "notes.txt");
     content_type := Some (lit "text/plain");
     file_contents := [x68; x69] |}.

Definition bill_a : upload_file :=
  {| filename := Some (lit "bill.pdf");
     content_type := Some (lit "application/pdf");
     file_contents := [x25; x50; x44; x46] |}.

Definition bill_b : upload_file :=
  {| filename := Some (lit "scan.png");
     content_type := Some (lit "image/png");
     file_contents := [x89; x50; x4e; x47] |}.

(** More environments: a body that is an empty object, a candidate whose
    text is a number, a stream PyMuPDF cannot open, and the two-page policy
    in front of a service that does not answer. *)

Definition empty_object_env : env := make key (replying (lit "{}")) [].

Definition number_env : env :=
  make key
    (replying (litq "{`candidates`:[{`content`:{`parts`:[{`text`:42}]}}]}")) [].

Definition corrupt_env : env :=
  {| GEMINI_API_KEY := key;
     network := answering (lit "- nothing");
     json_loads := loads_text;
     json_error_msg := fun _ => lit "Expecting value";
     exn_str := render_exn;
     py_repr := render_value;
     page := str;
     get_text := fun p => p;
     fitz_open := fun _ => Raise (OtherException (lit "cannot open broken document")) |}.

Definition policy_timeout_env : env := make key timing_out policy_pages.

(** The answer [replying body] gives. *)
Definition ok_response (body : str) : http_response :=
  {| status_code := 200; reason := lit "OK"; text := body |}.

Definition quota_response : http_response :=
  ok_response (litq "{`error`:{`message`:`Quota exceeded`}}").



(** The two-page policy with no key configured. *)
Definition no_key_policy_env : env := make None rejecting policy_pages.

End Stub.

(** ** Classes of exceptions and of routes *)

(** [isinstance(e, requests.exceptions.RequestException)]. *)
Definition is_request_exception (e : exn) : bool :=
  match e with RequestException _ _ => true | _ => false end.

(** The routes that call [call_gemini_api] with [is_json_output=True]. *)
Definition is_structured (rq : request) : bool :=
  match rq with
  | PostAsk _ _ | PostUploadDoc _ => false
  | _ => true
  end.

(** The prompt a route passes to [call_gemini_api] when the prompt is
    built from the request alone: every route but /upload-doc, whose prompt
    comes from the extracted text. *)
Definition route_prompt (rq : request) : option str :=
  match rq with
  | PostAsk q c => Some (ask_prompt q c)
  | PostUploadDoc _ => None
  | _ => structured_prompt rq
  end.

(** The fixed heading of the summarization prompt, with its blank line. *)
Definition summary_heading : str :=
  lit "Summarize the following insurance policy in bullet points:" ++ nl ++ nl.

(** * Properties *)

Unset Implicit Arguments.

(** ** Strings *)

Lemma str_eqb_eq (a b : str) : str_eqb a b = true <-> a = b.
Proof.
  unfold str_eqb. destruct (list_eq_dec N.eq_dec a b); split; congruence.
Qed.

Lemma lstrip_split (s : str) :
  exists l, s = l ++ lstrip s /\ forallb isspace l = true.
Proof.
  induction s as [|c s IH]; simpl.
  - exists []. auto.
  - destruct (isspace c) eqn:Hc.
    + destruct IH as [l [Hs Hl]]. exists (c :: l). simpl.
      rewrite Hc, Hl. split; [congruence | reflexivity].
    + exists []. auto.
Qed.

Lemma lstrip_head (s : str) (c : char) (r : str) :
  lstrip s = c :: r -> isspace c = false.
Proof.
  induction s as [|a s IH]; simpl; [discriminate|].
  destruct (isspace a) eqn:Ha; [exact IH|].
  intros H. injection H as -> _. exact Ha.
Qed.

Lemma lstrip_snoc (a : str) (c : char) :
  isspace c = false -> lstrip (a ++ [c]) = lstrip a ++ [c].
Proof.
  intros Hc. induction a as [|x a IH]; simpl.
  - now rewrite Hc.
  - destruct (isspace x); [exact IH | reflexivity].
Qed.

Lemma rstrip_split (s : str) :
  exists r, s = rstrip s ++ r /\ forallb isspace r = true.
Proof.
  unfold rstrip. destruct (lstrip_split (rev s)) as [l [Hs Hl]].
  exists (rev l). split.
  - rewrite <- rev_app_distr, <- Hs. now rewrite rev_involutive.
  - apply forallb_forall. intros x Hx. apply in_rev in Hx.
    rewrite forallb_forall in Hl. now apply Hl.
Qed.

Lemma rstrip_cons (c : char) (t : str) :
  isspace c = false -> rstrip (c :: t) = c :: rstrip t.
Proof.
  intros Hc. unfold rstrip. simpl. rewrite lstrip_snoc by exact Hc.
  now rewrite rev_app_distr.
Qed.

Lemma rstrip_last (s : str) (c : char) (r : str) :
  rstrip s = r ++ [c] -> isspace c = false.
Proof.
  unfold rstrip. intros H.
  apply (f_equal (@rev char)) in H.
  rewrite rev_involutive, rev_app_distr in H. simpl in H.
  exact (lstrip_head _ _ _ H).
Qed.

(** [strip] removes a run of whitespace at each end and nothing else. *)
Lemma strip_split (s : str) :
  exists l r, s = l ++ strip s ++ r
              /\ forallb isspace l = true /\ forallb isspace r = true.
Proof.
  unfold strip.
  destruct (lstrip_split s) as [l [Hs Hl]].
  destruct (rstrip_split (lstrip s)) as [r [Ht Hr]].
  exists l, r. split; [|split]; auto. now rewrite <- Ht.
Qed.

Lemma strip_first (s : str) (c : char) (r : str) :
  strip s = c :: r -> isspace c = false.
Proof.
  unfold strip. destruct (lstrip s) as [|a t] eqn:Hl.
  - discriminate.
  - pose proof (lstrip_head _ _ _ Hl) as Ha.
    rewrite rstrip_cons by exact Ha. intros H. now injection H as -> _.
Qed.

Lemma strip_last (s : str) (c : char) (r : str) :
  strip s = r ++ [c] -> isspace c = false.
Proof. unfold strip. apply rstrip_last. Qed.

Lemma strip_nonempty (s : str) (c : char) :
  In c s -> isspace c = false -> strip s <> [].
Proof.
  intros Hin Hc Hnil.
  destruct (strip_split s) as [l [r [Hs [Hl Hr]]]].
  rewrite Hnil in Hs. simpl in Hs. rewrite Hs in Hin.
  apply in_app_or in Hin.
  rewrite forallb_forall in Hl, Hr.
  destruct Hin as [H|H]; [apply Hl in H | apply Hr in H]; congruence.
Qed.

(** ** The monad *)

Lemma outcome_bind A B (m : M A) (k : A -> M B) :
  outcome (bind m k)
  = match outcome m with Ok a => outcome (k a) | Raise e => Raise e end.
Proof.
  destruct m as [[a|e] t]; simpl; [|reflexivity].
  now destruct (k a).
Qed.

Lemma trace_bind A B (m : M A) (k : A -> M B) :
  trace (bind m k)
  = trace m ++ match outcome m with Ok a => trace (k a) | Raise _ => [] end.
Proof.
  destruct m as [[a|e] t]; simpl.
  - now destruct (k a).
  - now rewrite app_nil_r.
Qed.

Lemma outcome_try A (m : M A) (h : exn -> M A) :
  outcome (try_except m h)
  = match outcome m with Ok a => Ok a | Raise e => outcome (h e) end.
Proof.
  destruct m as [[a|e] t]; simpl; [reflexivity|].
  now destruct (h e).
Qed.

Lemma trace_try A (m : M A) (h : exn -> M A) :
  trace (try_except m h)
  = trace m ++ match outcome m with Ok _ => [] | Raise e => trace (h e) end.
Proof.
  destruct m as [[a|e] t]; simpl.
  - now rewrite app_nil_r.
  - now destruct (h e).
Qed.

Lemma silent_ret A (a : A) : silent (ret a).
Proof. reflexivity. Qed.

Lemma silent_raise A (e : exn) : silent (@raise A e).
Proof. reflexivity. Qed.

Lemma silent_lift A (r : result A) : silent (lift r).
Proof. reflexivity. Qed.

Lemma silent_bind A B (m : M A) (k : A -> M B) :
  silent m -> (forall a, silent (k a)) -> silent (bind m k).
Proof.
  unfold silent. intros Hm Hk. rewrite trace_bind, Hm.
  destruct (outcome m); simpl; auto.
Qed.

Lemma silent_try A (m : M A) (h : exn -> M A) :
  silent m -> (forall e, silent (h e)) -> silent (try_except m h).
Proof.
  unfold silent. intros Hm Hh. rewrite trace_try, Hm.
  destruct (outcome m); simpl; auto.
Qed.

Lemma trace_bind_silent A B (m : M A) (k : A -> M B) :
  (forall a, silent (k a)) -> trace (bind m k) = trace m.
Proof.
  intros Hk. rewrite trace_bind. destruct (outcome m).
  - rewrite Hk. apply app_nil_r.
  - apply app_nil_r.
Qed.

Lemma trace_try_silent A (m : M A) (h : exn -> M A) :
  (forall e, silent (h e)) -> trace (try_except m h) = trace m.
Proof.
  intros Hh. rewrite trace_try. destruct (outcome m).
  - apply app_nil_r.
  - rewrite Hh. apply app_nil_r.
Qed.

Ltac silent :=
  repeat first
    [ apply silent_ret | apply silent_raise | apply silent_lift
    | apply silent_bind; [|intros ?]
    | apply silent_try; [|intros ?]
    | match goal with
      | |- silent (if ?b then _ else _) => destruct b
      | |- silent (match ?x with _ => _ end) => destruct x
      end ].

(** ** The gateway client *)

#[local] Arguments strip : simpl never.
#[local] Arguments slice_to : simpl never.
#[local] Arguments summary_prompt : simpl never.
#[local] Arguments lit : simpl never.
#[local] Arguments litq : simpl never.

Section Gateway.

Variable E : env.

Lemma http_error_msg_raises (url reason : str) (code : Z) :
  (400 <= code < 600)%Z ->
  str_truthy (http_error_msg url reason code) = true.
Proof.
  intros H. unfold http_error_msg.
  destruct ((400 <=? code)%Z && (code <? 500)%Z) eqn:H4.
  - destruct (str_of_Z code); reflexivity.
  - destruct ((500 <=? code)%Z && (code <? 600)%Z) eqn:H5.
    + destruct (str_of_Z code); reflexivity.
    + apply andb_false_iff in H4, H5. lia.
Qed.

Lemma read_candidates_silent (result : json) :
  silent (read_candidates E result).
Proof. unfold read_candidates. silent. Qed.

Lemma call_gemini_api_no_key (prompt : str) (is_json_output : bool) :
  opt_str_truthy (GEMINI_API_KEY E) = false ->
  call_gemini_api E prompt is_json_output
  = raise (HTTPException 500 (lit "GEMINI_API_KEY not configured.")).
Proof. intros H. unfold call_gemini_api. now rewrite H. Qed.

Lemma requests_post_trace (rq : http_request) :
  trace (requests_post E rq) = [EvPost rq].
Proof. unfold requests_post. now destruct (network E rq). Qed.

(** With a key, the client posts exactly one request, whatever follows. *)
Lemma call_gemini_api_trace (prompt key : str) (is_json_output : bool) :
  GEMINI_API_KEY E = Some key -> key <> [] ->
  trace (call_gemini_api E prompt is_json_output)
  = [EvPost (gemini_request key prompt is_json_output)].
Proof.
  intros Hk Hne. unfold call_gemini_api. rewrite Hk.
  destruct key as [|c key]; [contradiction|]. simpl negb. cbv iota.
  rewrite trace_try_silent.
  - rewrite trace_bind_silent; [apply requests_post_trace|].
    intros response. silent.
  - intros e. destruct e; apply silent_raise.
Qed.

Lemma call_gemini_api_ok_key (prompt : str) (is_json_output : bool) (v : json) :
  outcome (call_gemini_api E prompt is_json_output) = Ok v ->
  exists key, GEMINI_API_KEY E = Some key /\ key <> [].
Proof.
  intros H. destruct (opt_str_truthy (GEMINI_API_KEY E)) eqn:Hk.
  - destruct (GEMINI_API_KEY E) as [[|c k]|]; try discriminate.
    exists (c :: k). split; [reflexivity | discriminate].
  - rewrite (call_gemini_api_no_key _ _ Hk) in H. discriminate.
Qed.


End Gateway.

(** ** /upload-doc *)

#[local] Arguments call_gemini_api : simpl never.

Section UploadDoc.

Variable E : env.

Lemma is_pdf_false (file : upload_file) :
  content_type file <> Some (lit "application/pdf") -> is_pdf file = false.
Proof.
  unfold is_pdf. destruct (content_type file) as [t|]; [|reflexivity].
  intros H. destruct (str_eqb t (lit "application/pdf")) eqn:Heq; [|reflexivity].
  apply str_eqb_eq in Heq. congruence.
Qed.

(** What the handler does once PyMuPDF has opened the upload. *)
Lemma upload_doc_opened (file : upload_file) (doc : list (page E)) :
  is_pdf file = true ->
  fitz_open E (file_contents file) = Ok doc ->
  let c := file_contents file in
  let text := strip (join_empty (map (get_text E) doc)) in
  upload_doc E file
  = if str_truthy text then
      match call_gemini_api E (summary_prompt text) false with
      | (Ok summary, t) =>
          (Ok (JObj [ (lit "status", JStr (lit "success"));
                      (lit "filename", opt_json (filename file));
                      (lit "summary", summary);
                      (lit "full_text", JStr text) ]),
           [EvRead c; EvFitzOpen c] ++ t)
      | (Raise e, t) =>
          (Raise (HTTPException 500
                    (lit "PDF processing error: " ++ exn_str E e)),
           [EvRead c; EvFitzOpen c] ++ t)
      end
    else
      (Raise (HTTPException 500
                (lit "PDF processing error: "
                 ++ exn_str E (HTTPException 400
                                 (lit "PDF is empty or non-readable.")))),
       [EvRead c; EvFitzOpen c]).
Proof.
  intros Hpdf Hopen c text.
  unfold upload_doc, file_read, extract_text. rewrite Hpdf.
  simpl. rewrite Hopen. simpl. fold c text.
  destruct (str_truthy text); simpl; [|reflexivity].
  destruct (call_gemini_api E (summary_prompt text) false) as [[s|e] t];
    simpl; rewrite ?app_nil_r; reflexivity.
Qed.

(** What the handler does when PyMuPDF cannot open the upload. *)
Lemma upload_doc_unreadable (file : upload_file) (e : exn) :
  is_pdf file = true ->
  fitz_open E (file_contents file) = Raise e ->
  upload_doc E file
  = (Raise (HTTPException 500 (lit "PDF processing error: " ++ exn_str E e)),
     [EvRead (file_contents file); EvFitzOpen (file_contents file)]).
Proof.
  intros Hpdf Hopen.
  unfold upload_doc, file_read, extract_text. rewrite Hpdf.
  simpl. rewrite Hopen. reflexivity.
Qed.

(** C1 (what the code does).  An upload declared as PDF whose joined page
    text is empty after stripping does not end with status 400: the
    [HTTPException(400)] raised inside the [try] is caught by the
    handler's own [except Exception] and replaced by a 500 "PDF
    processing error". *)
Theorem upload_doc_empty_text_status_500
  (file : upload_file) (doc : list (page E)) :
  is_pdf file = true ->
  fitz_open E (file_contents file) = Ok doc ->
  strip (join_empty (map (get_text E) doc)) = [] ->
  outcome (upload_doc E file)
  = Raise (HTTPException 500
             (lit "PDF processing error: "
              ++ exn_str E (HTTPException 400
                              (lit "PDF is empty or non-readable."))))
  /\ http_status UploadDocResponse (outcome (upload_doc E file)) = 500%Z.
Proof.
  intros Hpdf Hopen Hempty.
  rewrite (upload_doc_opened _ _ Hpdf Hopen). rewrite Hempty. simpl. auto.
Qed.

(** C5.  An upload whose declared content type is not "application/pdf"
    fails with status 400 and the detail "Only PDF files are allowed.",
    and the handler has done nothing before: the upload is not read,
    PyMuPDF is not called, nothing is posted. *)
Theorem upload_doc_rejects_non_pdf_before_extraction (file : upload_file) :
  content_type file <> Some (lit "application/pdf") ->
  outcome (upload_doc E file)
  = Raise (HTTPException 400 (lit "Only PDF files are allowed."))
  /\ http_status UploadDocResponse (outcome (upload_doc E file)) = 400%Z
  /\ trace (upload_doc E file) = [].
Proof.
  intros H. apply is_pdf_false in H.
  unfold upload_doc. rewrite H. simpl. auto.
Qed.

(** C6.  For a stream PyMuPDF opens and in which some page has a
    character that is not whitespace, the extraction returns the page
    texts joined in page order with no separator and stripped: the result
    is not empty, it is the joined text minus a run of whitespace at each
    end, and it neither starts nor ends with whitespace. *)
Theorem extract_text_joins_pages_and_strips
  (contents : bytes) (doc : list (page E)) :
  fitz_open E contents = Ok doc ->
  (exists p c, In p doc /\ In c (get_text E p) /\ isspace c = false) ->
  let joined := concat (map (get_text E) doc) in
  exists t,
    outcome (extract_text E contents) = Ok t
    /\ t = strip joined
    /\ t <> []
    /\ (exists l r, joined = l ++ t ++ r
                    /\ forallb isspace l = true /\ forallb isspace r = true)
    /\ (forall c r, t = c :: r -> isspace c = false)
    /\ (forall c r, t = r ++ [c] -> isspace c = false).
Proof.
  intros Hopen [p [c [Hp [Hc Hns]]]] joined.
  exists (strip joined). repeat split.
  - unfold extract_text. rewrite Hopen. reflexivity.
  - apply strip_nonempty with (c := c); [|exact Hns].
    apply in_concat. exists (get_text E p). split; [|exact Hc].
    now apply in_map.
  - apply strip_split.
  - intros a r. apply strip_first.
  - intros a r. apply strip_last.
Qed.

(** C10.  When /upload-doc returns, it has posted exactly one request,
    whose prompt is the fixed heading followed by the first 8000
    characters of the extracted text, and the [full_text] of the response
    is the whole extracted text. *)
Theorem upload_doc_prompt_truncated_full_text_whole
  (file : upload_file) (v : json) :
  outcome (upload_doc E file) = Ok v ->
  exists (doc : list (page E)) (key : str) (summary : json),
    fitz_open E (file_contents file) = Ok doc
    /\ GEMINI_API_KEY E = Some key
    /\ let text := strip (concat (map (get_text E) doc)) in
       let prompt :=
         lit "Summarize the following insurance policy in bullet points:"
         ++ nl ++ nl ++ firstn 8000 text in
       trace (upload_doc E file)
       = [ EvRead (file_contents file); EvFitzOpen (file_contents file);
           EvPost (gemini_request key prompt false) ]
       /\ length (firstn 8000 text) <= 8000
       /\ v = JObj [ (lit "status", JStr (lit "success"));
                     (lit "filename", opt_json (filename file));
                     (lit "summary", summary);
                     (lit "full_text", JStr text) ].
Proof.
  intros Hok.
  destruct (is_pdf file) eqn:Hpdf.
  2:{ unfold upload_doc in Hok. rewrite Hpdf in Hok. discriminate. }
  destruct (fitz_open E (file_contents file)) as [doc|e] eqn:Hopen.
  2:{ rewrite (upload_doc_unreadable _ _ Hpdf Hopen) in Hok. discriminate. }
  pose proof (upload_doc_opened _ _ Hpdf Hopen) as Hrun. cbv zeta in Hrun.
  unfold join_empty in Hrun.
  set (text := strip (concat (map (get_text E) doc))) in *.
  destruct (str_truthy text).
  2:{ rewrite Hrun in Hok. discriminate. }
  destruct (call_gemini_api E (summary_prompt text) false)
    as [[summary|e] t] eqn:Hcall.
  2:{ rewrite Hrun in Hok. discriminate. }
  assert (Hout : outcome (call_gemini_api E (summary_prompt text) false)
                 = Ok summary) by now rewrite Hcall.
  destruct (call_gemini_api_ok_key E _ _ _ Hout) as [key [Hk Hne]].
  pose proof (call_gemini_api_trace E (summary_prompt text) key false Hk Hne) as Ht.
  rewrite Hcall in Ht. simpl in Ht. subst t.
  exists doc, key, summary. split; [reflexivity|]. split; [exact Hk|].
  cbv zeta. rewrite Hrun in *. simpl in Hok. injection Hok as <-.
  split; [reflexivity|]. split; [apply firstn_le_length | reflexivity].
Qed.

End UploadDoc.

(** ** The gateway client on a refused request *)

Section Refused.

Variable E : env.

(** C2 (what the code does).  When the service answers with a status
    from 400 to 599, [raise_for_status] raises an [HTTPError], which is a
    [RequestException]: the client fails with status 503 and a detail
    built from the status line alone.  The body of the answer, where the
    remote error message is, is never read. *)
Theorem call_gemini_api_error_status_is_503
  (prompt key : str) (is_json_output : bool) (r : http_response) :
  GEMINI_API_KEY E = Some key -> key <> [] ->
  network E (gemini_request key prompt is_json_output) = PostReturns r ->
  (400 <= status_code r < 600)%Z ->
  outcome (call_gemini_api E prompt is_json_output)
  = Raise (HTTPException 503
             (lit "Could not connect to AI service: "
              ++ exn_str E (RequestException HTTPError
                              (http_error_msg gemini_url (reason r) (status_code r)))))
  /\ forall model,
       http_status model (outcome (call_gemini_api E prompt is_json_output))
       = 503%Z.
Proof.
  intros Hk Hne Hnet Hcode.
  assert (Hout : outcome (call_gemini_api E prompt is_json_output)
    = Raise (HTTPException 503
             (lit "Could not connect to AI service: "
              ++ exn_str E (RequestException HTTPError
                              (http_error_msg gemini_url (reason r) (status_code r)))))).
  { unfold call_gemini_api. rewrite Hk.
    destruct key as [|c key]; [contradiction|]. simpl negb. cbv iota.
    unfold requests_post. rewrite Hnet.
    rewrite outcome_try, !outcome_bind.
    cbn [outcome emit ret fst]. rewrite outcome_bind.
    unfold raise_for_status, lift. simpl req_url.
    rewrite (http_error_msg_raises gemini_url (reason r) _ Hcode).
    reflexivity. }
  rewrite Hout. split; reflexivity.
Qed.

End Refused.

(** ** The structured routes *)

Section Structured.

Variable E : env.

(** Every structured handler is the call followed by the decoding. *)
Lemma handle_structured (rq : request) (prompt : str) :
  structured_prompt rq = Some prompt ->
  handle E rq = bind (call_gemini_api E prompt true) (loads_or_500 E).
Proof.
  destruct rq; simpl; intros H; try discriminate;
    injection H as <-; reflexivity.
Qed.

Lemma loads_or_500_silent (response_text : json) :
  silent (loads_or_500 E response_text).
Proof.
  unfold loads_or_500. apply silent_try; [apply silent_lift|].
  intros e. destruct e; apply silent_raise.
Qed.

(** A text that decodes is returned as decoded, whatever its shape. *)
Lemma loads_or_500_decoded (t : str) (v : json) :
  json_loads E t = Decoded v -> loads_or_500 E (JStr t) = (Ok v, []).
Proof. intros H. unfold loads_or_500, loads. now rewrite H. Qed.

Lemma loads_or_500_malformed (t : str) :
  json_loads E t = Undecodable ->
  loads_or_500 E (JStr t)
  = (Raise (HTTPException 500 (lit "AI did not return valid JSON.")), []).
Proof. intros H. unfold loads_or_500, loads. now rewrite H. Qed.


(** C7.  On /check-claim, /recommend-policy, /find-hospitals and
    /analytics, when the gateway returns a text that decodes to a value
    of the declared response shape, the handler returns that very value,
    with status 200. *)
Theorem structured_endpoint_returns_decoded_value_unchanged
  (rq : request) (prompt t : str) (v : json) :
  structured_prompt rq = Some prompt ->
  outcome (call_gemini_api E prompt true) = Ok (JStr t) ->
  json_loads E t = Decoded v ->
  conforms (response_model rq) v = true ->
  outcome (handle E rq) = Ok v
  /\ http_status (response_model rq) (outcome (handle E rq)) = 200%Z.
Proof.
  intros Hp Hcall Hdec Hshape.
  rewrite (handle_structured _ _ Hp), outcome_bind, Hcall.
  rewrite (loads_or_500_decoded _ _ Hdec). split; [reflexivity|].
  simpl. now rewrite Hshape.
Qed.



(** C9.  Two /check-claim requests with the same claim type and context
    that agree on whether a bill is attached build the same prompt and
    run identically: same result, same request posted.  The filename and
    the bytes of the bill are never looked at. *)
Theorem check_claim_depends_on_bill_presence_only
  (claim_type document_context : str) (bill1 bill2 : option upload_file) :
  (bill1 = None <-> bill2 = None) ->
  check_claim_prompt claim_type document_context bill1
  = check_claim_prompt claim_type document_context bill2
  /\ check_claim E claim_type document_context bill1
     = check_claim E claim_type document_context bill2.
Proof.
  intros H.
  assert (Hp : check_claim_prompt claim_type document_context bill1
               = check_claim_prompt claim_type document_context bill2).
  { destruct bill1 as [b1|], bill2 as [b2|]; try reflexivity.
    - destruct H as [_ H]. specialize (H eq_refl). discriminate.
    - destruct H as [H _]. specialize (H eq_refl). discriminate. }
  split; [exact Hp|]. unfold check_claim. now rewrite Hp.
Qed.



Lemma hospitals_count_list (m : list (str * json)) (l : list json) :
  dict_get m (lit "hospitals") = Some (JArr l) ->
  hospitals_count (JObj m) = Some (length l).
Proof. intros Hg. unfold hospitals_count. now rewrite Hg. Qed.


(** C4 (amended).  Without a key no route posts anything.  /ask,
    /check-claim, /recommend-policy, /find-hospitals and /analytics fail
    with status 500 and the detail "GEMINI_API_KEY not configured.".  On
    /upload-doc an upload whose declared content type is not
    "application/pdf" is refused with status 400 before the client is
    reached, and a PDF with extractable text fails with status 500 and a
    detail that carries the configuration error: "PDF processing error: "
    followed by the rendering of that exception. *)
Theorem no_key_no_post_and_configuration_error (rq : request) :
  opt_str_truthy (GEMINI_API_KEY E) = false ->
  posts (handle E rq) = 0
  /\ match rq with
     | PostUploadDoc file =>
         (is_pdf file = false ->
          outcome (handle E rq)
          = Raise (HTTPException 400 (lit "Only PDF files are allowed.")))
         /\ (forall doc : list (page E),
               is_pdf file = true ->
               fitz_open E (file_contents file) = Ok doc ->
               strip (join_empty (map (get_text E) doc)) <> [] ->
               outcome (handle E rq)
               = Raise (HTTPException 500
                          (lit "PDF processing error: "
                           ++ exn_str E
                                (HTTPException 500
                                   (lit "GEMINI_API_KEY not configured."))))
               /\ http_status (response_model rq) (outcome (handle E rq))
                  = 500%Z)
     | _ =>
         outcome (handle E rq)
         = Raise (HTTPException 500 (lit "GEMINI_API_KEY not configured."))
     end.
Proof.
  intros Hk.
  pose proof (fun p j => call_gemini_api_no_key E p j Hk) as Hcall.
  destruct rq; simpl handle.
  - unfold ask_question. rewrite Hcall. split; reflexivity.
  - split.
    + destruct (is_pdf file) eqn:Hpdf.
      * destruct (fitz_open E (file_contents file)) as [doc|e] eqn:Hopen.
        -- rewrite (upload_doc_opened _ _ _ Hpdf Hopen). cbv zeta.
           destruct (str_truthy _); [rewrite Hcall|]; reflexivity.
        -- now rewrite (upload_doc_unreadable _ _ _ Hpdf Hopen).
      * unfold upload_doc. now rewrite Hpdf.
    + split.
      * intros Hpdf. unfold upload_doc. now rewrite Hpdf.
      * intros doc Hpdf Hopen Hne.
        rewrite (upload_doc_opened _ _ _ Hpdf Hopen). cbv zeta.
        destruct (strip (join_empty (map (get_text E) doc)));
          [contradiction|].
        simpl str_truthy. cbv iota. rewrite Hcall. split; reflexivity.
  - unfold check_claim. rewrite Hcall. split; reflexivity.
  - unfold recommend_policy. rewrite Hcall. split; reflexivity.
  - unfold find_hospitals. rewrite Hcall. split; reflexivity.
  - unfold get_analytics_data. rewrite Hcall. split; reflexivity.
Qed.

End Structured.

(** ** Examples *)

(** POST /ask with a question and no context: the general template is
    posted once and the text of the gateway comes back as [answer]. *)
Example ask_copay :
  handle Stub.copay_env (PostAsk (lit "What is copay?") None)
  = (Ok (JObj [ (lit "answer", JStr (lit "Copay is...")) ]),
     [ EvPost (gemini_request (lit "secret")
                 (ask_prompt (lit "What is copay?") None) false) ]).
Proof. vm_compute. reflexivity. Qed.

(** A gateway that exceeds the timeout: /ask answers 503. *)
Example ask_timeout :
  outcome (handle Stub.timeout_env (PostAsk (lit "What is copay?") None))
  = Raise (HTTPException 503
             (lit "Could not connect to AI service: Read timed out.")).
Proof. vm_compute. reflexivity. Qed.

(** A 200 answer whose body has an [error] and no [candidates]: the
    [HTTPException] of the [elif] is caught by the [except Exception] of
    the same function and wrapped. *)
Example call_gemini_api_error_body :
  outcome (call_gemini_api Stub.quota_env (lit "Hi") false)
  = Raise (HTTPException 500
             (lit "Unexpected error: 500: Gemini API Error: Quota exceeded")).
Proof. vm_compute. reflexivity. Qed.

(** A blank two-page PDF: the handler answers 500. *)
Lemma upload_doc_empty_text_status_500_example :
  (is_pdf (Stub.pdf "blank.pdf") = true
   /\ fitz_open Stub.blank_env (file_contents (Stub.pdf "blank.pdf"))
      = Ok [lit "  "; nl]
   /\ strip (join_empty (map (get_text Stub.blank_env) [lit "  "; nl])) = [])
  /\ (outcome (upload_doc Stub.blank_env (Stub.pdf "blank.pdf"))
      = Raise (HTTPException 500
                 (lit "PDF processing error: "
                  ++ exn_str Stub.blank_env
                       (HTTPException 400 (lit "PDF is empty or non-readable."))))
      /\ http_status UploadDocResponse
           (outcome (upload_doc Stub.blank_env (Stub.pdf "blank.pdf")))
         = 500%Z).
Proof.
  split.
  - repeat split; vm_compute; reflexivity.
  - apply (upload_doc_empty_text_status_500 Stub.blank_env
             (Stub.pdf "blank.pdf") [lit "  "; nl]);
      vm_compute; reflexivity.
Defined.

(** A service that answers 400 with an error message in the body: the
    client answers 503. *)
Lemma call_gemini_api_error_status_is_503_example :
  (GEMINI_API_KEY Stub.rejecting_env = Some (lit "secret")
   /\ lit "secret" <> []
   /\ network Stub.rejecting_env (gemini_request (lit "secret") (lit "Hi") false)
      = PostReturns Stub.rejection
   /\ (400 <= status_code Stub.rejection < 600)%Z)
  /\ (outcome (call_gemini_api Stub.rejecting_env (lit "Hi") false)
      = Raise (HTTPException 503
                 (lit "Could not connect to AI service: "
                  ++ exn_str Stub.rejecting_env
                       (RequestException HTTPError
                          (http_error_msg gemini_url (lit "Bad Request") 400))))
      /\ forall model,
           http_status model
             (outcome (call_gemini_api Stub.rejecting_env (lit "Hi") false))
           = 503%Z).
Proof.
  split.
  - repeat split; try reflexivity; try lia. vm_compute. discriminate.
  - apply (call_gemini_api_error_status_is_503 Stub.rejecting_env
             (lit "Hi") (lit "secret") false Stub.rejection).
    + reflexivity.
    + vm_compute. discriminate.
    + reflexivity.
    + simpl. lia.
Defined.

(** A text file is refused before anything is read. *)
Lemma upload_doc_rejects_non_pdf_example :
  content_type Stub.text_file <> Some (lit "application/pdf")
  /\ (outcome (upload_doc Stub.policy_env Stub.text_file)
      = Raise (HTTPException 400 (lit "Only PDF files are allowed."))
      /\ http_status UploadDocResponse
           (outcome (upload_doc Stub.policy_env Stub.text_file)) = 400%Z
      /\ trace (upload_doc Stub.policy_env Stub.text_file) = []).
Proof.
  split.
  - vm_compute. discriminate.
  - apply (upload_doc_rejects_non_pdf_before_extraction
             Stub.policy_env Stub.text_file).
    vm_compute. discriminate.
Defined.

(** Two pages, each with whitespace around its words: the extraction
    returns "Policy A covers X.". *)
Lemma extract_text_joins_pages_and_strips_example :
  (fitz_open Stub.policy_env [x25; x50; x44; x46] = Ok Stub.policy_pages
   /\ In (lit " Policy A") Stub.policy_pages
   /\ In 80%N (lit " Policy A")
   /\ isspace 80%N = false)
  /\ exists t,
       outcome (extract_text Stub.policy_env [x25; x50; x44; x46]) = Ok t
       /\ t = lit "Policy A covers X."
       /\ t <> [].
Proof.
  assert (H1 : In (lit " Policy A") Stub.policy_pages) by (left; reflexivity).
  assert (H2 : In 80%N (lit " Policy A")) by (right; left; reflexivity).
  split.
  - repeat split; try assumption; reflexivity.
  - destruct (extract_text_joins_pages_and_strips Stub.policy_env
                [x25; x50; x44; x46] Stub.policy_pages eq_refl
                (ex_intro _ (lit " Policy A")
                   (ex_intro _ 80%N (conj H1 (conj H2 eq_refl)))))
      as [t [Hout [Ht [Hne _]]]].
    exists t. split; [exact Hout|]. split; [|exact Hne].
    rewrite Ht. vm_compute. reflexivity.
Defined.

(** A gateway that returns a claim decision: /check-claim returns it. *)
Lemma structured_endpoint_returns_decoded_value_unchanged_example :
  (structured_prompt Stub.claim_request
   = Some (check_claim_prompt (lit "Hospitalization")
             (lit "Covers hospital stays.") None)
   /\ outcome (call_gemini_api Stub.claim_env
                 (check_claim_prompt (lit "Hospitalization")
                    (lit "Covers hospital stays.") None) true)
      = Ok (JStr Stub.claim_text)
   /\ json_loads Stub.claim_env Stub.claim_text = Decoded Stub.claim_value
   /\ conforms (response_model Stub.claim_request) Stub.claim_value = true)
  /\ (outcome (handle Stub.claim_env Stub.claim_request) = Ok Stub.claim_value
      /\ http_status (response_model Stub.claim_request)
           (outcome (handle Stub.claim_env Stub.claim_request)) = 200%Z).
Proof.
  assert (Hcall : outcome (call_gemini_api Stub.claim_env
                    (check_claim_prompt (lit "Hospitalization")
                       (lit "Covers hospital stays.") None) true)
                  = Ok (JStr Stub.claim_text)) by (vm_compute; reflexivity).
  assert (Hdec : json_loads Stub.claim_env Stub.claim_text
                 = Decoded Stub.claim_value) by (vm_compute; reflexivity).
  assert (Hshape : conforms (response_model Stub.claim_request) Stub.claim_value
                   = true) by (vm_compute; reflexivity).
  split.
  - repeat split; assumption || reflexivity.
  - exact (structured_endpoint_returns_decoded_value_unchanged Stub.claim_env
             Stub.claim_request _ Stub.claim_text Stub.claim_value
             eq_refl Hcall Hdec Hshape).
Defined.


(** A PDF bill and a PNG bill give the same run. *)
Lemma check_claim_depends_on_bill_presence_only_example :
  (Some Stub.bill_a = None <-> Some Stub.bill_b = None)
  /\ Stub.bill_a <> Stub.bill_b
  /\ (check_claim_prompt (lit "Surgery") (lit "Covers surgery.") (Some Stub.bill_a)
      = check_claim_prompt (lit "Surgery") (lit "Covers surgery.") (Some Stub.bill_b)
      /\ check_claim Stub.claim_env (lit "Surgery") (lit "Covers surgery.")
           (Some Stub.bill_a)
         = check_claim Stub.claim_env (lit "Surgery") (lit "Covers surgery.")
             (Some Stub.bill_b)).
Proof.
  assert (H : Some Stub.bill_a = None <-> Some Stub.bill_b = None)
    by (split; discriminate).
  split; [exact H|]. split; [vm_compute; discriminate|].
  exact (check_claim_depends_on_bill_presence_only Stub.claim_env
           (lit "Surgery") (lit "Covers surgery.") _ _ H).
Defined.

(** The two-page policy: one post, and the whole text in [full_text]. *)
Lemma upload_doc_prompt_truncated_full_text_whole_example :
  outcome (upload_doc Stub.policy_env (Stub.pdf "policy.pdf"))
  = Ok Stub.policy_response
  /\ exists (doc : list (page Stub.policy_env)) (key : str) (summary : json),
       fitz_open Stub.policy_env (file_contents (Stub.pdf "policy.pdf")) = Ok doc
       /\ GEMINI_API_KEY Stub.policy_env = Some key
       /\ trace (upload_doc Stub.policy_env (Stub.pdf "policy.pdf"))
          = [ EvRead (file_contents (Stub.pdf "policy.pdf"));
              EvFitzOpen (file_contents (Stub.pdf "policy.pdf"));
              EvPost (gemini_request key
                        (lit "Summarize the following insurance policy in bullet points:"
                         ++ nl ++ nl
                         ++ firstn 8000
                              (strip (concat (map (get_text Stub.policy_env) doc))))
                        false) ].
Proof.
  assert (Hok : outcome (upload_doc Stub.policy_env (Stub.pdf "policy.pdf"))
                = Ok Stub.policy_response) by (vm_compute; reflexivity).
  split; [exact Hok|].
  destruct (upload_doc_prompt_truncated_full_text_whole Stub.policy_env
              (Stub.pdf "policy.pdf") Stub.policy_response Hok)
    as [doc [key [summary [Hopen [Hk [Ht _]]]]]].
  exists doc, key, summary. auto.
Defined.

(** Without a key, the two-page policy is neither posted nor summarized:
    the answer is a 500 that carries the configuration error. *)
Lemma no_key_no_post_and_configuration_error_example :
  (opt_str_truthy (GEMINI_API_KEY Stub.no_key_policy_env) = false
   /\ is_pdf (Stub.pdf "policy.pdf") = true
   /\ fitz_open Stub.no_key_policy_env (file_contents (Stub.pdf "policy.pdf"))
      = Ok Stub.policy_pages
   /\ strip (join_empty (map (get_text Stub.no_key_policy_env)
                            Stub.policy_pages)) <> [])
  /\ (posts (handle Stub.no_key_policy_env (PostUploadDoc (Stub.pdf "policy.pdf")))
      = 0
      /\ outcome (handle Stub.no_key_policy_env
                    (PostUploadDoc (Stub.pdf "policy.pdf")))
         = Raise (HTTPException 500
                    (lit "PDF processing error: 500: GEMINI_API_KEY not configured."))).
Proof.
  assert (Hpdf : is_pdf (Stub.pdf "policy.pdf") = true)
    by (vm_compute; reflexivity).
  assert (Hne : strip (join_empty (map (get_text Stub.no_key_policy_env)
                                     Stub.policy_pages)) <> [])
    by (vm_compute; discriminate).
  split.
  - repeat split; try assumption; reflexivity.
  - destruct (no_key_no_post_and_configuration_error Stub.no_key_policy_env
                (PostUploadDoc (Stub.pdf "policy.pdf")) eq_refl)
      as [Hposts [_ Hrun]].
    split; [exact Hposts|].
    exact (proj1 (Hrun Stub.policy_pages Hpdf eq_refl Hne)).
Defined.

(** ** Counterexamples *)


(** C4 as stated fails: without a key, an upload of a text file is
    answered with 400 "Only PDF files are allowed.", not with the
    configuration error. *)
Lemma no_key_upload_of_text_file_is_400 :
  opt_str_truthy (GEMINI_API_KEY Stub.no_key_env) = false
  /\ outcome (handle Stub.no_key_env (PostUploadDoc Stub.text_file))
     = Raise (HTTPException 400 (lit "Only PDF files are allowed."))
  /\ http_status UploadDocResponse
       (outcome (handle Stub.no_key_env (PostUploadDoc Stub.text_file)))
     <> 500%Z.
Proof.
  repeat split; try (vm_compute; reflexivity). vm_compute. discriminate.
Qed.


(** * Further properties of the client and of the routes *)

(** ** Failures and returns of a computation *)

Lemma bind_raises A B (m : M A) (k : A -> M B) (e : exn) :
  outcome (bind m k) = Raise e ->
  outcome m = Raise e \/ exists a, outcome m = Ok a /\ outcome (k a) = Raise e.
Proof.
  rewrite outcome_bind. destruct (outcome m) as [a|e']; intros H.
  - right. exists a. auto.
  - left. congruence.
Qed.

Lemma py_in_raises (key : str) (v : json) (e : exn) :
  py_in key v = Raise e -> is_request_exception e = false.
Proof. destruct v; simpl; intros H; inversion H; reflexivity. Qed.

Lemma getitem_raises (v : json) (key : str) (e : exn) :
  getitem v key = Raise e -> is_request_exception e = false.
Proof.
  destruct v; simpl; try destruct (dict_get fields key); intros H;
    inversion H; reflexivity.
Qed.

Lemma getitem0_raises (v : json) (e : exn) :
  getitem0 v = Raise e -> is_request_exception e = false.
Proof.
  destruct v as [| | | |s|l|m]; simpl; try destruct s; try destruct l;
    intros H; inversion H; reflexivity.
Qed.

Lemma get_default_raises (v : json) (key : str) (d : json) (e : exn) :
  get_default v key d = Raise e -> is_request_exception e = false.
Proof.
  destruct v; simpl; try destruct (dict_get fields key); intros H;
    inversion H; reflexivity.
Qed.

Ltac raises H :=
  repeat first
    [ apply bind_raises in H; destruct H as [H | [? [_ H]]]
    | match type of H with
      | outcome (if ?b then _ else _) = _ => destruct b
      end ];
  cbn [outcome lift ret raise fst] in H;
  first
    [ discriminate H
    | injection H as <-; reflexivity
    | exact (py_in_raises _ _ _ H)
    | exact (getitem_raises _ _ _ H)
    | exact (getitem0_raises _ _ H)
    | exact (get_default_raises _ _ _ _ H) ].

(** ** The client, case by case *)

Section GatewayRuns.

Variable E : env.

(** Whatever the decoded body is, reading the candidates never raises an
    exception of [requests]. *)
Lemma read_candidates_raises (result : json) (e : exn) :
  outcome (read_candidates E result) = Raise e ->
  is_request_exception e = false.
Proof. unfold read_candidates. intros H. raises H. Qed.

(** The run of the client once a key is configured. *)
Lemma call_gemini_api_run (prompt key : str) (is_json_output : bool) :
  GEMINI_API_KEY E = Some key -> key <> [] ->
  outcome (call_gemini_api E prompt is_json_output)
  = match network E (gemini_request key prompt is_json_output) with
    | PostRaises cls msg =>
        Raise (HTTPException 503
                 (lit "Could not connect to AI service: "
                  ++ exn_str E (RequestException cls msg)))
    | PostReturns r =>
        match raise_for_status gemini_url r with
        | Raise e =>
            Raise (HTTPException 503
                     (lit "Could not connect to AI service: " ++ exn_str E e))
        | Ok _ =>
            match json_loads E (text r) with
            | Undecodable =>
                Raise (HTTPException 503
                         (lit "Could not connect to AI service: "
                          ++ exn_str E
                               (RequestException InvalidJSONError
                                  (json_error_msg E (text r)))))
            | DecoderFails d =>
                Raise (HTTPException 500
                         (lit "Unexpected error: " ++ exn_str E (decoder_exn d)))
            | Decoded result =>
                match outcome (read_candidates E result) with
                | Ok v => Ok v
                | Raise e =>
                    Raise (HTTPException 500
                             (lit "Unexpected error: " ++ exn_str E e))
                end
            end
        end
    end.
Proof.
  intros Hk Hne. unfold call_gemini_api. rewrite Hk.
  destruct key as [|c key]; [contradiction|]. simpl negb. cbv iota.
  rewrite outcome_try, outcome_bind. unfold requests_post.
  rewrite outcome_bind. cbn [outcome emit fst].
  destruct (network E _) as [cls msg|r]; [reflexivity|].
  cbn [outcome ret fst]. rewrite outcome_bind. cbn [outcome lift fst req_url gemini_request].
  unfold raise_for_status.
  destruct (str_truthy (http_error_msg gemini_url (reason r) (status_code r)));
    [reflexivity|].
  rewrite outcome_bind. cbn [outcome lift fst].
  unfold response_json. destruct (json_loads E (text r)) as [result| |d].
  - destruct (outcome (read_candidates E result)) as [v|e] eqn:Hr;
      [reflexivity|].
    apply read_candidates_raises in Hr. destruct e; try reflexivity.
    discriminate.
  - reflexivity.
  - destruct d; reflexivity.
Qed.


Lemma raise_for_status_passes (url : str) (r : http_response) :
  ~ (400 <= status_code r < 600)%Z -> raise_for_status url r = Ok tt.
Proof.
  intros H. unfold raise_for_status, http_error_msg.
  destruct ((400 <=? status_code r)%Z && (status_code r <? 500)%Z) eqn:H4.
  { apply andb_true_iff in H4. lia. }
  destruct ((500 <=? status_code r)%Z && (status_code r <? 600)%Z) eqn:H5.
  { apply andb_true_iff in H5. lia. }
  reflexivity.
Qed.

Lemma raise_for_status_ok (url : str) (r : http_response) (u : unit) :
  raise_for_status url r = Ok u -> ~ (400 <= status_code r < 600)%Z.
Proof.
  intros H Hc. unfold raise_for_status in H.
  now rewrite (http_error_msg_raises url (reason r) _ Hc) in H.
Qed.

(** X1.  Whatever the configuration, the network and the answer, a failure
    of the client is an [HTTPException] with status 500 or 503: no other
    exception leaves [call_gemini_api]. *)
Theorem call_gemini_api_fails_with_500_or_503
  (prompt : str) (is_json_output : bool) (e : exn) :
  outcome (call_gemini_api E prompt is_json_output) = Raise e ->
  exists detail,
    e = HTTPException 500 detail \/ e = HTTPException 503 detail.
Proof.
  intros H. destruct (opt_str_truthy (GEMINI_API_KEY E)) eqn:Hk.
  - destruct (GEMINI_API_KEY E) as [[|c key]|] eqn:HK; try discriminate.
    rewrite (call_gemini_api_run prompt (c :: key) is_json_output HK) in H
      by discriminate.
    destruct (network E _) as [cls msg|r].
    { injection H as <-. eauto. }
    destruct (raise_for_status gemini_url r).
    2:{ injection H as <-. eauto. }
    destruct (json_loads E (text r)) as [result| |d].
    2:{ injection H as <-. eauto. }
    2:{ injection H as <-. eauto. }
    destruct (outcome (read_candidates E result)); [discriminate|].
    injection H as <-. eauto.
  - rewrite (call_gemini_api_no_key E _ _ Hk) in H.
    injection H as <-. eauto.
Qed.

(** X2.  When [requests.post] itself raises (no connection, timeout), the
    client answers 503 with the message of the exception after "Could not
    connect to AI service: ", having posted once and only once. *)
Theorem call_gemini_api_transport_failure_is_503
  (prompt key msg : str) (is_json_output : bool) (cls : requests_error) :
  GEMINI_API_KEY E = Some key -> key <> [] ->
  network E (gemini_request key prompt is_json_output) = PostRaises cls msg ->
  call_gemini_api E prompt is_json_output
  = (Raise (HTTPException 503
              (lit "Could not connect to AI service: "
               ++ exn_str E (RequestException cls msg))),
     [EvPost (gemini_request key prompt is_json_output)]).
Proof.
  intros Hk Hne Hnet.
  rewrite (surjective_pairing (call_gemini_api E prompt is_json_output)).
  change (fst (call_gemini_api E prompt is_json_output))
    with (outcome (call_gemini_api E prompt is_json_output)).
  change (snd (call_gemini_api E prompt is_json_output))
    with (trace (call_gemini_api E prompt is_json_output)).
  rewrite (call_gemini_api_trace E _ _ _ Hk Hne).
  rewrite (call_gemini_api_run _ _ _ Hk Hne), Hnet. reflexivity.
Qed.

Lemma bind_returns A B (m : M A) (k : A -> M B) (b : B) :
  outcome (bind m k) = Ok b ->
  exists a, outcome m = Ok a /\ outcome (k a) = Ok b.
Proof.
  rewrite outcome_bind. destruct (outcome m) as [a|e]; intros H.
  - exists a. auto.
  - discriminate.
Qed.

Lemma getitem_ok (v : json) (key : str) (x : json) :
  getitem v key = Ok x <-> exists m, v = JObj m /\ dict_get m key = Some x.
Proof.
  split.
  - destruct v; simpl; try discriminate.
    destruct (dict_get fields key) eqn:Hg; [|discriminate].
    intros H. injection H as <-. eauto.
  - intros [m [-> Hg]]. simpl. now rewrite Hg.
Qed.

Lemma getitem0_ok_object (v : json) (o : list (str * json)) :
  getitem0 v = Ok (JObj o) -> exists others, v = JArr (JObj o :: others).
Proof.
  destruct v as [| | | |s|l|m]; simpl; try discriminate.
  - destruct s; discriminate.
  - destruct l as [|x l]; [discriminate|].
    intros H. injection H as ->. eauto.
Qed.

(** The one shape of body from which the client reads a text. *)
Lemma read_candidates_ok (result v : json) :
  outcome (read_candidates E result) = Ok v
  <-> exists m c0 others content p0 others',
        result = JObj m
        /\ dict_get m (lit "candidates") = Some (JArr (JObj c0 :: others))
        /\ dict_get c0 (lit "content") = Some (JObj content)
        /\ dict_get content (lit "parts") = Some (JArr (JObj p0 :: others'))
        /\ dict_get p0 (lit "text") = Some v.
Proof.
  split.
  - unfold read_candidates. intros H.
    apply bind_returns in H. destruct H as [has [_ H]].
    apply bind_returns in H. destruct H as [ok [_ H]].
    destruct ok.
    + apply bind_returns in H. destruct H as [c [H1 H]].
      apply bind_returns in H. destruct H as [x0 [H2 H]].
      apply bind_returns in H. destruct H as [x1 [H3 H]].
      apply bind_returns in H. destruct H as [x2 [H4 H]].
      apply bind_returns in H. destruct H as [x3 [H5 H]].
      cbn [outcome lift fst] in *.
      apply getitem_ok in H1, H3, H4, H.
      destruct H1 as [m [-> H1]]. destruct H3 as [c0 [-> H3]].
      destruct H4 as [content [-> H4]]. destruct H as [p0 [-> H]].
      apply getitem0_ok_object in H2, H5.
      destruct H2 as [others ->]. destruct H5 as [others' ->].
      exists m, c0, others, content, p0, others'. auto.
    + apply bind_returns in H. destruct H as [he [_ H]].
      destruct he.
      * apply bind_returns in H. destruct H as [? [_ H]].
        apply bind_returns in H. destruct H as [? [_ H]].
        discriminate H.
      * discriminate H.
  - intros [m [c0 [others [content [p0 [others' [-> [H1 [H2 [H3 H4]]]]]]]]]].
    unfold read_candidates. simpl. rewrite H1. simpl.
    rewrite H2. simpl. rewrite H3. simpl. now rewrite H4.
Qed.

(** X3.  The client returns a value in one case only: a key is configured,
    the service answers with a status outside 400-599, the body decodes to
    an object, and the value is the [text] of the first part of the
    [content] of the first of its [candidates]. *)
Theorem call_gemini_api_returns_first_candidate_text
  (prompt : str) (is_json_output : bool) (v : json) :
  outcome (call_gemini_api E prompt is_json_output) = Ok v
  <-> exists key r m c0 others content p0 others',
        GEMINI_API_KEY E = Some key /\ key <> []
        /\ network E (gemini_request key prompt is_json_output) = PostReturns r
        /\ ~ (400 <= status_code r < 600)%Z
        /\ json_loads E (text r) = Decoded (JObj m)
        /\ dict_get m (lit "candidates") = Some (JArr (JObj c0 :: others))
        /\ dict_get c0 (lit "content") = Some (JObj content)
        /\ dict_get content (lit "parts") = Some (JArr (JObj p0 :: others'))
        /\ dict_get p0 (lit "text") = Some v.
Proof.
  split.
  - intros H.
    destruct (call_gemini_api_ok_key E _ _ _ H) as [key [Hk Hne]].
    rewrite (call_gemini_api_run _ _ _ Hk Hne) in H.
    destruct (network E _) as [cls msg|r] eqn:Hnet; [discriminate|].
    destruct (raise_for_status gemini_url r) as [u|] eqn:Hs; [|discriminate].
    apply raise_for_status_ok in Hs.
    destruct (json_loads E (text r)) as [result| |d] eqn:Hj;
      try discriminate.
    destruct (outcome (read_candidates E result)) as [x|] eqn:Hr;
      [|discriminate].
    injection H as ->.
    apply read_candidates_ok in Hr.
    destruct Hr as [m [c0 [others [content [p0 [others' [-> Hr]]]]]]].
    exists key, r, m, c0, others, content, p0, others'. tauto.
  - intros [key [r [m [c0 [others [content [p0 [others'
             [Hk [Hne [Hnet [Hs [Hj Hr]]]]]]]]]]]]].
    rewrite (call_gemini_api_run _ _ _ Hk Hne), Hnet.
    rewrite (raise_for_status_passes _ _ Hs).
    rewrite Hj.
    assert (Hread : outcome (read_candidates E (JObj m)) = Ok v).
    { apply read_candidates_ok.
      exists m, c0, others, content, p0, others'. tauto. }
    now rewrite Hread.
Qed.

(** What the client reads from an object without usable candidates. *)
Lemma read_candidates_without_candidates (m : list (str * json)) :
  (forall c, dict_get m (lit "candidates") = Some c -> truthy c = false) ->
  outcome (read_candidates E (JObj m))
  = match dict_get m (lit "error") with
    | Some err =>
        match get_default err (lit "message") (JStr (lit "Unknown error")) with
        | Ok message =>
            Raise (HTTPException 500
                     (lit "Gemini API Error: " ++ py_format E message))
        | Raise e => Raise e
        end
    | None =>
        Raise (HTTPException 500
                 (lit "Invalid response structure from Gemini API."))
    end.
Proof.
  intros Hc. unfold read_candidates. simpl.
  destruct (dict_get m (lit "candidates")) as [c|] eqn:Hg; simpl.
  - rewrite (Hc c eq_refl). simpl.
    destruct (dict_get m (lit "error")) as [err|]; simpl; [|reflexivity].
    destruct (get_default err _ _); reflexivity.
  - destruct (dict_get m (lit "error")) as [err|]; simpl; [|reflexivity].
    destruct (get_default err _ _); reflexivity.
Qed.

(** X4.  An answer that passes the status check and whose body is an
    object with an [error] object and no usable candidates: the client
    builds "Gemini API Error: " followed by the remote message ("Unknown
    error" when the error has none), but that exception is caught by the
    [except Exception] of the same function, and what leaves is a 500
    whose detail is "Unexpected error: " followed by its rendering. *)
Theorem call_gemini_api_error_body_is_wrapped
  (prompt key : str) (is_json_output : bool) (r : http_response)
  (m err : list (str * json)) :
  GEMINI_API_KEY E = Some key -> key <> [] ->
  network E (gemini_request key prompt is_json_output) = PostReturns r ->
  ~ (400 <= status_code r < 600)%Z ->
  json_loads E (text r) = Decoded (JObj m) ->
  (forall c, dict_get m (lit "candidates") = Some c -> truthy c = false) ->
  dict_get m (lit "error") = Some (JObj err) ->
  outcome (call_gemini_api E prompt is_json_output)
  = Raise (HTTPException 500
             (lit "Unexpected error: "
              ++ exn_str E
                   (HTTPException 500
                      (lit "Gemini API Error: "
                       ++ py_format E
                            (match dict_get err (lit "message") with
                             | Some message => message
                             | None => JStr (lit "Unknown error")
                             end))))).
Proof.
  intros Hk Hne Hnet Hs Hj Hc He.
  rewrite (call_gemini_api_run _ _ _ Hk Hne), Hnet.
  rewrite (raise_for_status_passes _ _ Hs).
  rewrite Hj.
  rewrite (read_candidates_without_candidates _ Hc), He. simpl.
  destruct (dict_get err (lit "message")); reflexivity.
Qed.

(** X5.  An answer that passes the status check and whose body is an
    object with neither usable candidates nor an [error] key (an empty
    object, an empty list of candidates): the client fails with status 500
    and the detail "Unexpected error: " followed by the rendering of the
    "Invalid response structure" exception it raised and caught itself. *)
Theorem call_gemini_api_no_candidates_is_wrapped_500
  (prompt key : str) (is_json_output : bool) (r : http_response)
  (m : list (str * json)) :
  GEMINI_API_KEY E = Some key -> key <> [] ->
  network E (gemini_request key prompt is_json_output) = PostReturns r ->
  ~ (400 <= status_code r < 600)%Z ->
  json_loads E (text r) = Decoded (JObj m) ->
  (forall c, dict_get m (lit "candidates") = Some c -> truthy c = false) ->
  dict_get m (lit "error") = None ->
  outcome (call_gemini_api E prompt is_json_output)
  = Raise (HTTPException 500
             (lit "Unexpected error: "
              ++ exn_str E
                   (HTTPException 500
                      (lit "Invalid response structure from Gemini API.")))).
Proof.
  intros Hk Hne Hnet Hs Hj Hc He.
  rewrite (call_gemini_api_run _ _ _ Hk Hne), Hnet.
  rewrite (raise_for_status_passes _ _ Hs).
  rewrite Hj.
  now rewrite (read_candidates_without_candidates _ Hc), He.
Qed.

(** X19.  Once the service has answered with a status outside 400-599
    and a body that decodes, the client never answers 503: whatever goes
    wrong in reading the body (a missing key, an empty list, a value of
    the wrong type, the two exceptions the function raises itself), the
    failure is a 500 whose detail is "Unexpected error: " followed by the
    rendering of an exception that is not one of [requests]. *)
Theorem call_gemini_api_failure_after_decoding_is_500
  (prompt key : str) (is_json_output : bool) (r : http_response)
  (result : json) (e : exn) :
  GEMINI_API_KEY E = Some key -> key <> [] ->
  network E (gemini_request key prompt is_json_output) = PostReturns r ->
  ~ (400 <= status_code r < 600)%Z ->
  json_loads E (text r) = Decoded result ->
  outcome (call_gemini_api E prompt is_json_output) = Raise e ->
  exists e',
    is_request_exception e' = false
    /\ e = HTTPException 500 (lit "Unexpected error: " ++ exn_str E e').
Proof.
  intros Hk Hne Hnet Hs Hj H.
  rewrite (call_gemini_api_run _ _ _ Hk Hne), Hnet in H.
  rewrite (raise_for_status_passes _ _ Hs) in H.
  rewrite Hj in H.
  destruct (outcome (read_candidates E result)) as [v|e'] eqn:Hr;
    [discriminate|].
  injection H as <-. exists e'. split; [|reflexivity].
  exact (read_candidates_raises _ _ Hr).
Qed.

(** X20.  The client answers 503 only when [requests] raised: the post
    itself failed, or the service answered with a status from 400 to 599,
    or the decoder raised [JSONDecodeError] on the body of the answer.  A
    missing key, any other exception of the decoder and every failure in
    reading a decoded body give 500. *)
Theorem call_gemini_api_503_only_when_requests_raises
  (prompt detail : str) (is_json_output : bool) :
  outcome (call_gemini_api E prompt is_json_output)
  = Raise (HTTPException 503 detail) ->
  exists key,
    GEMINI_API_KEY E = Some key /\ key <> []
    /\ match network E (gemini_request key prompt is_json_output) with
       | PostRaises _ _ => True
       | PostReturns r =>
           (400 <= status_code r < 600)%Z \/ json_loads E (text r) = Undecodable
       end.
Proof.
  intros H. destruct (opt_str_truthy (GEMINI_API_KEY E)) eqn:Hk.
  2:{ rewrite (call_gemini_api_no_key E _ _ Hk) in H. discriminate. }
  destruct (GEMINI_API_KEY E) as [[|c key]|] eqn:HK; try discriminate.
  exists (c :: key). split; [reflexivity|]. split; [discriminate|].
  rewrite (call_gemini_api_run prompt (c :: key) is_json_output HK) in H
    by discriminate.
  destruct (network E _) as [cls msg|r]; [exact I|].
  assert (Hd : (400 <= status_code r < 600)%Z \/ ~ (400 <= status_code r < 600)%Z)
    by lia.
  destruct Hd as [Hd|Hd]; [left; exact Hd|]. right.
  rewrite (raise_for_status_passes _ _ Hd) in H.
  destruct (json_loads E (text r)) as [result| |d].
  - destruct (outcome (read_candidates E result)); discriminate.
  - reflexivity.
  - discriminate.
Qed.

End GatewayRuns.

(** ** Routes *)

Lemma strip_empty_iff (s : str) :
  strip s = [] <-> forallb isspace s = true.
Proof.
  split.
  - intros H. destruct (strip_split s) as [l [r [Hs [Hl Hr]]]].
    rewrite H in Hs. simpl in Hs. rewrite Hs, forallb_app, Hl, Hr. reflexivity.
  - intros H. destruct (strip s) as [|c t] eqn:Hst; [reflexivity|].
    pose proof (strip_first _ _ _ Hst) as Hc.
    destruct (strip_split s) as [l [r [Hs [_ _]]]].
    rewrite forallb_forall in H.
    assert (Hin : In c s).
    { rewrite Hs, Hst. apply in_or_app. right. left. reflexivity. }
    apply H in Hin. congruence.
Qed.

Lemma str_truthy_strip (s : str) :
  str_truthy (strip s) = negb (forallb isspace s).
Proof.
  destruct (forallb isspace s) eqn:H.
  - apply strip_empty_iff in H. now rewrite H.
  - destruct (strip s) eqn:Hs; [|reflexivity].
    apply strip_empty_iff in Hs. congruence.
Qed.

Section Routes.

Variable E : env.

Lemma call_gemini_api_trace_cases (prompt : str) (is_json_output : bool) :
  trace (call_gemini_api E prompt is_json_output) = []
  \/ exists key,
       GEMINI_API_KEY E = Some key /\ key <> []
       /\ trace (call_gemini_api E prompt is_json_output)
          = [EvPost (gemini_request key prompt is_json_output)].
Proof.
  destruct (opt_str_truthy (GEMINI_API_KEY E)) eqn:Hk.
  - right. destruct (GEMINI_API_KEY E) as [[|c key]|] eqn:HK; try discriminate.
    exists (c :: key). split; [reflexivity|]. split; [discriminate|].
    apply call_gemini_api_trace; [exact HK | discriminate].
  - left. now rewrite (call_gemini_api_no_key E _ _ Hk).
Qed.

(** Every route but /upload-doc does nothing to the outside world beyond
    its one call of the client. *)
Lemma handle_route_prompt (rq : request) (prompt : str) :
  route_prompt rq = Some prompt ->
  trace (handle E rq) = trace (call_gemini_api E prompt (is_structured rq))
  /\ forall e,
       outcome (call_gemini_api E prompt (is_structured rq)) = Raise e ->
       outcome (handle E rq) = Raise e.
Proof.
  intros Hp. destruct rq; simpl in Hp; try discriminate;
    injection Hp as <-; simpl handle; simpl is_structured.
  - unfold ask_question. split.
    + apply trace_bind_silent. intros a. apply silent_ret.
    + intros e He. now rewrite outcome_bind, He.
  - unfold check_claim. split.
    + apply trace_bind_silent. apply loads_or_500_silent.
    + intros e He. now rewrite outcome_bind, He.
  - unfold recommend_policy. split.
    + apply trace_bind_silent. apply loads_or_500_silent.
    + intros e He. now rewrite outcome_bind, He.
  - unfold find_hospitals. split.
    + apply trace_bind_silent. apply loads_or_500_silent.
    + intros e He. now rewrite outcome_bind, He.
  - unfold get_analytics_data. split.
    + apply trace_bind_silent. apply loads_or_500_silent.
    + intros e He. now rewrite outcome_bind, He.
Qed.

(** The three shapes of a run of /upload-doc. *)
Lemma upload_doc_trace (file : upload_file) :
  let c := file_contents file in
  trace (upload_doc E file) = []
  \/ trace (upload_doc E file) = [EvRead c; EvFitzOpen c]
  \/ exists doc,
       is_pdf file = true
       /\ fitz_open E c = Ok doc
       /\ strip (join_empty (map (get_text E) doc)) <> []
       /\ trace (upload_doc E file)
          = [EvRead c; EvFitzOpen c]
            ++ trace (call_gemini_api E
                        (summary_prompt
                           (strip (join_empty (map (get_text E) doc)))) false).
Proof.
  intros c. destruct (is_pdf file) eqn:Hpdf.
  2:{ left. unfold upload_doc. now rewrite Hpdf. }
  right. destruct (fitz_open E (file_contents file)) as [doc|e] eqn:Hopen.
  2:{ left. now rewrite (upload_doc_unreadable _ _ _ Hpdf Hopen). }
  rewrite (upload_doc_opened _ _ _ Hpdf Hopen). cbv zeta. fold c.
  destruct (strip (join_empty (map (get_text E) doc))) as [|a t] eqn:Ht.
  { left. reflexivity. }
  right. exists doc. split; [reflexivity|]. split; [exact Hopen|]. rewrite Ht.
  split; [discriminate|]. simpl str_truthy. cbv iota.
  destruct (call_gemini_api E (summary_prompt (a :: t)) false) as [[s|e] tr];
    reflexivity.
Qed.

(** X6.  Whatever the route and the request, a request that is posted goes
    to the one Gemini address, with a timeout of 90 and the configured,
    non-empty key in its headers; its [generation_config] asks for
    "application/json" exactly on /check-claim, /recommend-policy,
    /find-hospitals and /analytics, and is empty on /ask and /upload-doc. *)
Theorem every_post_is_a_gemini_request (rq : request) (r : http_request) :
  In (EvPost r) (trace (handle E rq)) ->
  exists key prompt,
    GEMINI_API_KEY E = Some key /\ key <> []
    /\ r = gemini_request key prompt (is_structured rq)
    /\ req_url r = gemini_url
    /\ req_timeout r = 90%Z
    /\ req_headers r = [ (lit "Content-Type", lit "application/json");
                         (lit "x-goog-api-key", key) ]
    /\ getitem (req_json r) (lit "generation_config")
       = Ok (JObj (if is_structured rq
                   then [ (lit "response_mime_type",
                           JStr (lit "application/json")) ]
                   else [])).
Proof.
  intros Hin.
  assert (H : exists key prompt,
             GEMINI_API_KEY E = Some key /\ key <> []
             /\ r = gemini_request key prompt (is_structured rq)).
  { destruct (route_prompt rq) as [p|] eqn:Hp.
    - destruct (handle_route_prompt rq p Hp) as [Ht _]. rewrite Ht in Hin.
      destruct (call_gemini_api_trace_cases p (is_structured rq))
        as [H0 | [key [Hk [Hne H1]]]].
      + rewrite H0 in Hin. destruct Hin.
      + rewrite H1 in Hin. destruct Hin as [Heq | []].
        injection Heq as <-. eauto.
    - destruct rq; try discriminate. simpl in Hin. simpl is_structured.
      destruct (upload_doc_trace file) as [H0 | [H0 | [doc [_ [_ [_ H0]]]]]];
        rewrite H0 in Hin.
      + destruct Hin.
      + destruct Hin as [Heq | [Heq | []]]; discriminate.
      + destruct Hin as [Heq | [Heq | Hin]]; try discriminate.
        destruct (call_gemini_api_trace_cases
                    (summary_prompt (strip (join_empty (map (get_text E) doc))))
                    false) as [H1 | [key [Hk [Hne H1]]]];
          rewrite H1 in Hin.
        * destruct Hin.
        * destruct Hin as [Heq | []]. injection Heq as <-. eauto. }
  destruct H as [key [prompt [Hk [Hne ->]]]].
  exists key, prompt. repeat split; assumption.
Qed.

(** X7.  No request makes the backend post more than once: there is no
    retry on any route, whatever the service answers. *)
Theorem at_most_one_post_per_request (rq : request) :
  posts (handle E rq) <= 1.
Proof.
  unfold posts.
  destruct (route_prompt rq) as [p|] eqn:Hp.
  - destruct (handle_route_prompt rq p Hp) as [Ht _]. rewrite Ht.
    destruct (call_gemini_api_trace_cases p (is_structured rq))
      as [H0 | [key [_ [_ H1]]]].
    + rewrite H0. simpl. lia.
    + rewrite H1. simpl. lia.
  - destruct rq; try discriminate. simpl handle.
    destruct (upload_doc_trace file) as [H0 | [H0 | [doc [_ [_ [_ H0]]]]]];
      rewrite H0; simpl; try lia.
    destruct (call_gemini_api_trace_cases
                (summary_prompt (strip (join_empty (map (get_text E) doc))))
                false) as [H1 | [key [_ [_ H1]]]];
      rewrite H1; simpl; lia.
Qed.


(** X8.  On the four structured routes, when the text of the first
    candidate is not a string (a number, an object, null), [json.loads]
    raises a [TypeError], which the [except json.JSONDecodeError] does not
    catch: the exception leaves the handler as it is and the framework
    answers 500. *)
Theorem structured_endpoint_non_string_text_is_type_error
  (rq : request) (prompt : str) (v : json) :
  structured_prompt rq = Some prompt ->
  outcome (call_gemini_api E prompt true) = Ok v ->
  (forall t, v <> JStr t) ->
  outcome (handle E rq) = Raise TypeError
  /\ http_status (response_model rq) (outcome (handle E rq)) = 500%Z.
Proof.
  intros Hp Hcall Hv.
  rewrite (handle_structured E _ _ Hp), outcome_bind, Hcall.
  destruct v; try (split; reflexivity).
  exfalso. exact (Hv s eq_refl).
Qed.

(** X9.  On every route but /upload-doc, a failure of the client leaves
    the handler unchanged: the framework answers with the status the
    client chose (503 stays 503), and the handler has done nothing but the
    call. *)
Theorem gateway_failure_leaves_handler_unchanged
  (rq : request) (prompt : str) (e : exn) :
  route_prompt rq = Some prompt ->
  outcome (call_gemini_api E prompt (is_structured rq)) = Raise e ->
  outcome (handle E rq) = Raise e
  /\ http_status (response_model rq) (outcome (handle E rq)) = exn_status e
  /\ trace (handle E rq) = trace (call_gemini_api E prompt (is_structured rq)).
Proof.
  intros Hp He. destruct (handle_route_prompt rq prompt Hp) as [Ht Hr].
  rewrite (Hr e He). repeat split. exact Ht.
Qed.

(** X10.  An upload declared as PDF that PyMuPDF cannot open is answered
    with status 500 and "PDF processing error: " followed by the message
    of the library; the upload has been read and handed to PyMuPDF, and
    nothing is posted. *)
Theorem upload_doc_unreadable_pdf_is_500 (file : upload_file) (e : exn) :
  is_pdf file = true ->
  fitz_open E (file_contents file) = Raise e ->
  outcome (upload_doc E file)
  = Raise (HTTPException 500 (lit "PDF processing error: " ++ exn_str E e))
  /\ http_status UploadDocResponse (outcome (upload_doc E file)) = 500%Z
  /\ trace (upload_doc E file)
     = [EvRead (file_contents file); EvFitzOpen (file_contents file)]
  /\ posts (upload_doc E file) = 0.
Proof.
  intros Hpdf Hopen. rewrite (upload_doc_unreadable _ _ _ Hpdf Hopen).
  repeat split.
Qed.

(** X11.  On /upload-doc a failure of the client does not keep its
    status: whatever the client raised (the 503 of an unreachable service,
    the 500 of a missing key), the handler's own [except Exception]
    replaces it by a 500 "PDF processing error: ...". *)
Theorem upload_doc_gateway_failure_becomes_500
  (file : upload_file) (doc : list (page E)) (e : exn) :
  is_pdf file = true ->
  fitz_open E (file_contents file) = Ok doc ->
  strip (join_empty (map (get_text E) doc)) <> [] ->
  outcome (call_gemini_api E
             (summary_prompt (strip (join_empty (map (get_text E) doc)))) false)
  = Raise e ->
  outcome (upload_doc E file)
  = Raise (HTTPException 500 (lit "PDF processing error: " ++ exn_str E e))
  /\ http_status UploadDocResponse (outcome (upload_doc E file)) = 500%Z.
Proof.
  intros Hpdf Hopen Hne Hcall.
  rewrite (upload_doc_opened _ _ _ Hpdf Hopen). cbv zeta.
  destruct (strip (join_empty (map (get_text E) doc))) as [|a t];
    [contradiction|].
  simpl str_truthy. cbv iota.
  destruct (call_gemini_api E (summary_prompt (a :: t)) false) as [[s|e'] tr].
  - discriminate.
  - simpl in Hcall. injection Hcall as ->. split; reflexivity.
Qed.

(** X12.  With a key configured, a PDF that PyMuPDF opens is sent to the
    service exactly when some page has a character that is not
    whitespace: a document of blank pages, or with no page at all, is
    never posted. *)
Theorem upload_doc_posts_iff_some_text
  (file : upload_file) (doc : list (page E)) (key : str) :
  is_pdf file = true ->
  fitz_open E (file_contents file) = Ok doc ->
  GEMINI_API_KEY E = Some key -> key <> [] ->
  posts (upload_doc E file)
  = if forallb isspace (concat (map (get_text E) doc)) then 0 else 1.
Proof.
  intros Hpdf Hopen Hk Hne.
  rewrite (upload_doc_opened _ _ _ Hpdf Hopen). cbv zeta.
  unfold join_empty. rewrite str_truthy_strip.
  destruct (forallb isspace (concat (map (get_text E) doc))); simpl negb;
    cbv iota; [reflexivity|].
  pose proof (call_gemini_api_trace E
                (summary_prompt (strip (concat (map (get_text E) doc))))
                key false Hk Hne) as Ht.
  destruct (call_gemini_api E _ false) as [[s|e] tr]; simpl in Ht; subst tr;
    reflexivity.
Qed.

(** X13.  What /upload-doc returns, when it returns: [status] is
    "success", [filename] is the name of the upload, [summary] is what the
    client returned for the summarization prompt, and [full_text] is not
    empty and neither starts nor ends with whitespace. *)
Theorem upload_doc_response_fields (file : upload_file) (v : json) :
  outcome (upload_doc E file) = Ok v ->
  exists (text : str) (summary : json),
    v = JObj [ (lit "status", JStr (lit "success"));
               (lit "filename", opt_json (filename file));
               (lit "summary", summary);
               (lit "full_text", JStr text) ]
    /\ outcome (call_gemini_api E (summary_prompt text) false) = Ok summary
    /\ text <> []
    /\ (forall c r, text = c :: r -> isspace c = false)
    /\ (forall c r, text = r ++ [c] -> isspace c = false).
Proof.
  intros Hok.
  destruct (is_pdf file) eqn:Hpdf.
  2:{ unfold upload_doc in Hok. rewrite Hpdf in Hok. discriminate. }
  destruct (fitz_open E (file_contents file)) as [doc|e] eqn:Hopen.
  2:{ rewrite (upload_doc_unreadable _ _ _ Hpdf Hopen) in Hok. discriminate. }
  rewrite (upload_doc_opened _ _ _ Hpdf Hopen) in Hok. cbv zeta in Hok.
  set (text := strip (join_empty (map (get_text E) doc))) in *.
  destruct (str_truthy text) eqn:Hne; [|discriminate].
  destruct (call_gemini_api E (summary_prompt text) false)
    as [[summary|e] tr] eqn:Hcall; [|discriminate].
  injection Hok as <-. exists text, summary.
  split; [reflexivity|]. split; [now rewrite Hcall|].
  split; [intros H; rewrite H in Hne; discriminate|].
  split; intros c r; [apply strip_first | apply strip_last].
Qed.

(** X14.  The summarization prompt is the 60 characters of the heading
    followed by at most 8000 characters of text: it never exceeds 8060
    characters, and a text of at most 8000 characters is in it whole. *)
Theorem summary_prompt_length (text : str) :
  length (summary_prompt text) = 60 + Nat.min 8000 (length text)
  /\ length (summary_prompt text) <= 8060
  /\ (length text <= 8000 -> summary_prompt text = summary_heading ++ text).
Proof.
  assert (Hlen : length (summary_prompt text) = 60 + Nat.min 8000 (length text)).
  { unfold summary_prompt, slice_to.
    rewrite !length_app, length_firstn. reflexivity. }
  split; [exact Hlen|]. split.
  - rewrite Hlen.
    assert (Nat.min 8000 (length text) <= 8000) by apply Nat.le_min_l.
    change 8060 with (60 + 8000). lia.
  - intros H. unfold summary_prompt, summary_heading, slice_to.
    rewrite firstn_all2 by exact H. now rewrite <- !app_assoc.
Qed.

(** X15.  /ask uses the template with a context exactly when the request
    has a non-empty [document_context]: an empty string gives the same
    prompt as no context, and any other context gives a different one. *)
Theorem ask_prompt_uses_context_iff_non_empty
  (question : str) (document_context : option str) :
  ask_prompt question document_context = ask_prompt question None
  <-> opt_str_truthy document_context = false.
Proof.
  split.
  - intros H. destruct (opt_str_truthy document_context) eqn:Hc;
      [|reflexivity].
    unfold ask_prompt in H. rewrite Hc in H. simpl opt_str_truthy in H.
    cbv iota in H. apply (f_equal (firstn 50)) in H.
    vm_compute in H. discriminate.
  - intros H. unfold ask_prompt. now rewrite H.
Qed.

(** X16.  /ask returns exactly when the client returns, and then returns
    an object with the one field [answer] holding what the client
    returned. *)
Theorem ask_question_returns_answer
  (question : str) (document_context : option str) (v : json) :
  outcome (ask_question E question document_context) = Ok v
  <-> exists answer,
        outcome (call_gemini_api E (ask_prompt question document_context) false)
        = Ok answer
        /\ v = JObj [ (lit "answer", answer) ].
Proof.
  unfold ask_question. cbv zeta. rewrite outcome_bind.
  destruct (outcome (call_gemini_api E _ false)) as [a|e]; split.
  - intros H. injection H as <-. eauto.
  - intros [answer [Ha ->]]. now injection Ha as ->.
  - discriminate.
  - intros [answer [Ha _]]. discriminate.
Qed.

(** X17.  Whether a bill is attached is visible to the service: for the
    same claim type and context, the prompt with a bill and the prompt
    without one differ. *)
Theorem check_claim_prompt_shows_bill_presence
  (claim_type document_context : str) (bill : upload_file) :
  check_claim_prompt claim_type document_context (Some bill)
  <> check_claim_prompt claim_type document_context None.
Proof.
  unfold check_claim_prompt, unlines. rewrite <- !app_assoc.
  intros H.
  repeat (apply app_inv_head in H).
  vm_compute in H. discriminate.
Qed.

(** X18.  On /upload-doc a post, when there is one, comes last: the
    upload has been read and opened as a PDF before, the extracted text is
    not empty, and the request carries the summarization prompt of that
    text without the JSON directive. *)
Theorem upload_doc_posts_after_extraction
  (file : upload_file) (r : http_request) :
  In (EvPost r) (trace (upload_doc E file)) ->
  exists (doc : list (page E)) (key : str),
    is_pdf file = true
    /\ fitz_open E (file_contents file) = Ok doc
    /\ strip (concat (map (get_text E) doc)) <> []
    /\ GEMINI_API_KEY E = Some key
    /\ r = gemini_request key
             (summary_prompt (strip (concat (map (get_text E) doc)))) false
    /\ trace (upload_doc E file)
       = [ EvRead (file_contents file); EvFitzOpen (file_contents file);
           EvPost r ].
Proof.
  intros Hin.
  destruct (upload_doc_trace file) as [H0 | [H0 | [doc [Hpdf [Hopen [Hne H0]]]]]];
    rewrite H0 in Hin.
  - destruct Hin.
  - destruct Hin as [Heq | [Heq | []]]; discriminate.
  - destruct Hin as [Heq | [Heq | Hin]]; try discriminate.
    unfold join_empty in *.
    destruct (call_gemini_api_trace_cases
                (summary_prompt (strip (concat (map (get_text E) doc)))) false)
      as [H1 | [key [Hk [_ H1]]]]; rewrite H1 in Hin.
    + destruct Hin.
    + destruct Hin as [Heq | []]. injection Heq as <-.
      exists doc, key. rewrite H0, H1. repeat split; assumption.
Qed.

End Routes.

(** ** Examples of the further properties *)

(** A service that does not answer: the failure of the client is a 503. *)
Lemma call_gemini_api_fails_with_500_or_503_example :
  outcome (call_gemini_api Stub.timeout_env (lit "Hi") false)
  = Raise (HTTPException 503
             (lit "Could not connect to AI service: Read timed out."))
  /\ exists detail,
       HTTPException 503
         (lit "Could not connect to AI service: Read timed out.")
       = HTTPException 500 detail
       \/ HTTPException 503
            (lit "Could not connect to AI service: Read timed out.")
          = HTTPException 503 detail.
Proof.
  assert (H : outcome (call_gemini_api Stub.timeout_env (lit "Hi") false)
              = Raise (HTTPException 503
                         (lit "Could not connect to AI service: Read timed out.")))
    by (vm_compute; reflexivity).
  split; [exact H|].
  exact (call_gemini_api_fails_with_500_or_503 Stub.timeout_env
           (lit "Hi") false _ H).
Defined.

Lemma call_gemini_api_transport_failure_is_503_example :
  (GEMINI_API_KEY Stub.timeout_env = Some (lit "secret")
   /\ lit "secret" <> []
   /\ network Stub.timeout_env (gemini_request (lit "secret") (lit "Hi") false)
      = PostRaises Timeout (lit "Read timed out."))
  /\ call_gemini_api Stub.timeout_env (lit "Hi") false
     = (Raise (HTTPException 503
                 (lit "Could not connect to AI service: "
                  ++ exn_str Stub.timeout_env
                       (RequestException Timeout (lit "Read timed out.")))),
        [EvPost (gemini_request (lit "secret") (lit "Hi") false)]).
Proof.
  assert (Hne : lit "secret" <> []) by (vm_compute; discriminate).
  split.
  - repeat split; try reflexivity. exact Hne.
  - exact (call_gemini_api_transport_failure_is_503 Stub.timeout_env
             (lit "Hi") (lit "secret") (lit "Read timed out.") false Timeout
             eq_refl Hne eq_refl).
Defined.

(** A 200 answer with an error message and no candidates. *)
Lemma call_gemini_api_error_body_is_wrapped_example :
  (GEMINI_API_KEY Stub.quota_env = Some (lit "secret")
   /\ lit "secret" <> []
   /\ network Stub.quota_env (gemini_request (lit "secret") (lit "Hi") false)
      = PostReturns Stub.quota_response
   /\ ~ (400 <= status_code Stub.quota_response < 600)%Z
   /\ json_loads Stub.quota_env (text Stub.quota_response)
      = Decoded (JObj [ (lit "error",
                      JObj [ (lit "message", JStr (lit "Quota exceeded")) ]) ])
   /\ dict_get [ (lit "error",
                  JObj [ (lit "message", JStr (lit "Quota exceeded")) ]) ]
        (lit "candidates") = None
   /\ dict_get [ (lit "error",
                  JObj [ (lit "message", JStr (lit "Quota exceeded")) ]) ]
        (lit "error")
      = Some (JObj [ (lit "message", JStr (lit "Quota exceeded")) ]))
  /\ outcome (call_gemini_api Stub.quota_env (lit "Hi") false)
     = Raise (HTTPException 500
                (lit "Unexpected error: 500: Gemini API Error: Quota exceeded")).
Proof.
  assert (Hne : lit "secret" <> []) by (vm_compute; discriminate).
  assert (Hs : ~ (400 <= status_code Stub.quota_response < 600)%Z)
    by (simpl; lia).
  assert (Hj : json_loads Stub.quota_env (text Stub.quota_response)
               = Decoded (JObj [ (lit "error",
                               JObj [ (lit "message",
                                       JStr (lit "Quota exceeded")) ]) ]))
    by (vm_compute; reflexivity).
  assert (Hc : dict_get [ (lit "error",
                           JObj [ (lit "message", JStr (lit "Quota exceeded")) ]) ]
                 (lit "candidates") = None) by (vm_compute; reflexivity).
  split.
  - repeat split; try assumption; reflexivity.
  - apply (call_gemini_api_error_body_is_wrapped Stub.quota_env
             (lit "Hi") (lit "secret") false Stub.quota_response
             [ (lit "error",
                JObj [ (lit "message", JStr (lit "Quota exceeded")) ]) ]
             [ (lit "message", JStr (lit "Quota exceeded")) ]).
    + reflexivity.
    + exact Hne.
    + reflexivity.
    + exact Hs.
    + exact Hj.
    + intros c H. rewrite Hc in H. discriminate.
    + reflexivity.
Defined.

(** A 200 answer whose body is the empty object. *)
Lemma call_gemini_api_no_candidates_is_wrapped_500_example :
  (GEMINI_API_KEY Stub.empty_object_env = Some (lit "secret")
   /\ lit "secret" <> []
   /\ network Stub.empty_object_env
        (gemini_request (lit "secret") (lit "Hi") false)
      = PostReturns (Stub.ok_response (lit "{}"))
   /\ ~ (400 <= status_code (Stub.ok_response (lit "{}")) < 600)%Z
   /\ json_loads Stub.empty_object_env (text (Stub.ok_response (lit "{}")))
      = Decoded (JObj [])
   /\ dict_get [] (lit "candidates") = None
   /\ dict_get [] (lit "error") = None)
  /\ outcome (call_gemini_api Stub.empty_object_env (lit "Hi") false)
     = Raise (HTTPException 500
                (lit "Unexpected error: 500: Invalid response structure from Gemini API.")).
Proof.
  assert (Hne : lit "secret" <> []) by (vm_compute; discriminate).
  assert (Hs : ~ (400 <= status_code (Stub.ok_response (lit "{}")) < 600)%Z)
    by (simpl; lia).
  assert (Hj : json_loads Stub.empty_object_env
                 (text (Stub.ok_response (lit "{}"))) = Decoded (JObj []))
    by (vm_compute; reflexivity).
  split.
  - repeat split; try assumption; reflexivity.
  - apply (call_gemini_api_no_candidates_is_wrapped_500 Stub.empty_object_env
             (lit "Hi") (lit "secret") false (Stub.ok_response (lit "{}")) []).
    + reflexivity.
    + exact Hne.
    + reflexivity.
    + exact Hs.
    + exact Hj.
    + intros c H. discriminate.
    + reflexivity.
Defined.

(** The one post of /ask. *)
Lemma every_post_is_a_gemini_request_example :
  In (EvPost (gemini_request (lit "secret")
                (ask_prompt (lit "What is copay?") None) false))
     (trace (handle Stub.copay_env (PostAsk (lit "What is copay?") None)))
  /\ exists key prompt,
       GEMINI_API_KEY Stub.copay_env = Some key /\ key <> []
       /\ gemini_request (lit "secret")
            (ask_prompt (lit "What is copay?") None) false
          = gemini_request key prompt false.
Proof.
  assert (Hin : In (EvPost (gemini_request (lit "secret")
                              (ask_prompt (lit "What is copay?") None) false))
                  (trace (handle Stub.copay_env
                            (PostAsk (lit "What is copay?") None))))
    by (left; reflexivity).
  split; [exact Hin|].
  destruct (every_post_is_a_gemini_request Stub.copay_env
              (PostAsk (lit "What is copay?") None) _ Hin)
    as [key [prompt [Hk [Hne [Hr _]]]]].
  exists key, prompt. auto.
Defined.

(** A candidate whose text is the number 42, on /analytics. *)
Lemma structured_endpoint_non_string_text_is_type_error_example :
  (structured_prompt GetAnalytics = Some analytics_prompt
   /\ outcome (call_gemini_api Stub.number_env analytics_prompt true)
      = Ok (JInt 42)
   /\ forall t, JInt 42 <> JStr t)
  /\ (outcome (handle Stub.number_env GetAnalytics) = Raise TypeError
      /\ http_status (response_model GetAnalytics)
           (outcome (handle Stub.number_env GetAnalytics)) = 500%Z).
Proof.
  assert (Hcall : outcome (call_gemini_api Stub.number_env analytics_prompt true)
                  = Ok (JInt 42)) by (vm_compute; reflexivity).
  assert (Hv : forall t, JInt 42 <> JStr t) by (intros t; discriminate).
  split.
  - repeat split; assumption || reflexivity.
  - exact (structured_endpoint_non_string_text_is_type_error Stub.number_env
             GetAnalytics analytics_prompt (JInt 42) eq_refl Hcall Hv).
Defined.

(** /find-hospitals in front of a service that does not answer: 503. *)
Lemma gateway_failure_leaves_handler_unchanged_example :
  (route_prompt (GetFindHospitals (lit "Pune"))
   = Some (find_hospitals_prompt (lit "Pune"))
   /\ outcome (call_gemini_api Stub.timeout_env
                 (find_hospitals_prompt (lit "Pune")) true)
      = Raise (HTTPException 503
                 (lit "Could not connect to AI service: Read timed out.")))
  /\ (outcome (handle Stub.timeout_env (GetFindHospitals (lit "Pune")))
      = Raise (HTTPException 503
                 (lit "Could not connect to AI service: Read timed out."))
      /\ http_status FindHospitalsResponse
           (outcome (handle Stub.timeout_env (GetFindHospitals (lit "Pune"))))
         = 503%Z).
Proof.
  assert (Hcall : outcome (call_gemini_api Stub.timeout_env
                             (find_hospitals_prompt (lit "Pune")) true)
                  = Raise (HTTPException 503
                             (lit "Could not connect to AI service: Read timed out.")))
    by (vm_compute; reflexivity).
  split.
  - split; [reflexivity | exact Hcall].
  - destruct (gateway_failure_leaves_handler_unchanged Stub.timeout_env
                (GetFindHospitals (lit "Pune")) _ _ eq_refl Hcall)
      as [Ho [Hs _]].
    split; [exact Ho | exact Hs].
Defined.

(** A stream PyMuPDF cannot open. *)
Lemma upload_doc_unreadable_pdf_is_500_example :
  (is_pdf (Stub.pdf "broken.pdf") = true
   /\ fitz_open Stub.corrupt_env (file_contents (Stub.pdf "broken.pdf"))
      = Raise (OtherException (lit "cannot open broken document")))
  /\ (outcome (upload_doc Stub.corrupt_env (Stub.pdf "broken.pdf"))
      = Raise (HTTPException 500
                 (lit "PDF processing error: cannot open broken document"))
      /\ posts (upload_doc Stub.corrupt_env (Stub.pdf "broken.pdf")) = 0).
Proof.
  assert (Hpdf : is_pdf (Stub.pdf "broken.pdf") = true)
    by (vm_compute; reflexivity).
  split.
  - split; [exact Hpdf | reflexivity].
  - destruct (upload_doc_unreadable_pdf_is_500 Stub.corrupt_env
                (Stub.pdf "broken.pdf") _ Hpdf eq_refl)
      as [Ho [_ [_ Hp]]].
    split; [exact Ho | exact Hp].
Defined.

(** The two-page policy in front of a service that does not answer: the
    503 of the client becomes a 500. *)
Lemma upload_doc_gateway_failure_becomes_500_example :
  (is_pdf (Stub.pdf "policy.pdf") = true
   /\ fitz_open Stub.policy_timeout_env (file_contents (Stub.pdf "policy.pdf"))
      = Ok Stub.policy_pages
   /\ strip (join_empty (map (get_text Stub.policy_timeout_env) Stub.policy_pages))
      <> []
   /\ outcome (call_gemini_api Stub.policy_timeout_env
                 (summary_prompt
                    (strip (join_empty
                              (map (get_text Stub.policy_timeout_env)
                                 Stub.policy_pages)))) false)
      = Raise (HTTPException 503
                 (lit "Could not connect to AI service: Read timed out.")))
  /\ (outcome (upload_doc Stub.policy_timeout_env (Stub.pdf "policy.pdf"))
      = Raise (HTTPException 500
                 (lit "PDF processing error: 503: Could not connect to AI service: Read timed out."))
      /\ http_status UploadDocResponse
           (outcome (upload_doc Stub.policy_timeout_env (Stub.pdf "policy.pdf")))
         = 500%Z).
Proof.
  assert (Hpdf : is_pdf (Stub.pdf "policy.pdf") = true)
    by (vm_compute; reflexivity).
  assert (Hne : strip (join_empty (map (get_text Stub.policy_timeout_env)
                                     Stub.policy_pages)) <> [])
    by (vm_compute; discriminate).
  assert (Hcall : outcome (call_gemini_api Stub.policy_timeout_env
                     (summary_prompt
                        (strip (join_empty
                                  (map (get_text Stub.policy_timeout_env)
                                     Stub.policy_pages)))) false)
                  = Raise (HTTPException 503
                             (lit "Could not connect to AI service: Read timed out.")))
    by (vm_compute; reflexivity).
  split.
  - repeat split; try assumption; reflexivity.
  - exact (upload_doc_gateway_failure_becomes_500 Stub.policy_timeout_env
             (Stub.pdf "policy.pdf") Stub.policy_pages _
             Hpdf eq_refl Hne Hcall).
Defined.

(** The two-page policy is posted; two blank pages are not. *)
Lemma upload_doc_posts_iff_some_text_example :
  (is_pdf (Stub.pdf "policy.pdf") = true
   /\ fitz_open Stub.policy_env (file_contents (Stub.pdf "policy.pdf"))
      = Ok Stub.policy_pages
   /\ GEMINI_API_KEY Stub.policy_env = Some (lit "secret")
   /\ lit "secret" <> [])
  /\ posts (upload_doc Stub.policy_env (Stub.pdf "policy.pdf")) = 1.
Proof.
  assert (Hpdf : is_pdf (Stub.pdf "policy.pdf") = true)
    by (vm_compute; reflexivity).
  assert (Hne : lit "secret" <> []) by (vm_compute; discriminate).
  split.
  - repeat split; try assumption; reflexivity.
  - exact (upload_doc_posts_iff_some_text Stub.policy_env
             (Stub.pdf "policy.pdf") Stub.policy_pages (lit "secret")
             Hpdf eq_refl eq_refl Hne).
Defined.

(** The response to the two-page policy. *)
Lemma upload_doc_response_fields_example :
  outcome (upload_doc Stub.policy_env (Stub.pdf "policy.pdf"))
  = Ok Stub.policy_response
  /\ exists (text : str) (summary : json),
       Stub.policy_response
       = JObj [ (lit "status", JStr (lit "success"));
                (lit "filename", opt_json (filename (Stub.pdf "policy.pdf")));
                (lit "summary", summary);
                (lit "full_text", JStr text) ]
       /\ text <> [].
Proof.
  assert (Hok : outcome (upload_doc Stub.policy_env (Stub.pdf "policy.pdf"))
                = Ok Stub.policy_response) by (vm_compute; reflexivity).
  split; [exact Hok|].
  destruct (upload_doc_response_fields Stub.policy_env
              (Stub.pdf "policy.pdf") Stub.policy_response Hok)
    as [text [summary [Hv [_ [Hne _]]]]].
  exists text, summary. auto.
Defined.

(** The post of the two-page policy comes third. *)
Lemma upload_doc_posts_after_extraction_example :
  In (EvPost (gemini_request (lit "secret")
                (summary_prompt (lit "Policy A covers X.")) false))
     (trace (upload_doc Stub.policy_env (Stub.pdf "policy.pdf")))
  /\ trace (upload_doc Stub.policy_env (Stub.pdf "policy.pdf"))
     = [ EvRead (file_contents (Stub.pdf "policy.pdf"));
         EvFitzOpen (file_contents (Stub.pdf "policy.pdf"));
         EvPost (gemini_request (lit "secret")
                   (summary_prompt (lit "Policy A covers X.")) false) ].
Proof.
  assert (Hin : In (EvPost (gemini_request (lit "secret")
                              (summary_prompt (lit "Policy A covers X.")) false))
                  (trace (upload_doc Stub.policy_env (Stub.pdf "policy.pdf"))))
    by (vm_compute; right; right; left; reflexivity).
  split; [exact Hin|].
  destruct (upload_doc_posts_after_extraction Stub.policy_env
              (Stub.pdf "policy.pdf") _ Hin)
    as [doc [key [_ [_ [_ [_ [_ Ht]]]]]]].
  exact Ht.
Defined.

(** The empty object again: the failure is a 500 and wraps an
    [HTTPException]. *)
Lemma call_gemini_api_failure_after_decoding_is_500_example :
  (GEMINI_API_KEY Stub.empty_object_env = Some (lit "secret")
   /\ lit "secret" <> []
   /\ network Stub.empty_object_env
        (gemini_request (lit "secret") (lit "Hi") false)
      = PostReturns (Stub.ok_response (lit "{}"))
   /\ ~ (400 <= status_code (Stub.ok_response (lit "{}")) < 600)%Z
   /\ json_loads Stub.empty_object_env (text (Stub.ok_response (lit "{}")))
      = Decoded (JObj [])
   /\ outcome (call_gemini_api Stub.empty_object_env (lit "Hi") false)
      = Raise (HTTPException 500
                 (lit "Unexpected error: 500: Invalid response structure from Gemini API.")))
  /\ exists e',
       is_request_exception e' = false
       /\ HTTPException 500
            (lit "Unexpected error: 500: Invalid response structure from Gemini API.")
          = HTTPException 500
              (lit "Unexpected error: " ++ exn_str Stub.empty_object_env e').
Proof.
  assert (Hne : lit "secret" <> []) by (vm_compute; discriminate).
  assert (Hs : ~ (400 <= status_code (Stub.ok_response (lit "{}")) < 600)%Z)
    by (simpl; lia).
  assert (Hj : json_loads Stub.empty_object_env
                 (text (Stub.ok_response (lit "{}"))) = Decoded (JObj []))
    by (vm_compute; reflexivity).
  assert (Hout : outcome (call_gemini_api Stub.empty_object_env (lit "Hi") false)
                 = Raise (HTTPException 500
                            (lit "Unexpected error: 500: Invalid response structure from Gemini API.")))
    by (vm_compute; reflexivity).
  split.
  - repeat split; try assumption; reflexivity.
  - exact (call_gemini_api_failure_after_decoding_is_500 Stub.empty_object_env
             (lit "Hi") (lit "secret") false (Stub.ok_response (lit "{}"))
             (JObj []) _ eq_refl Hne eq_refl Hs Hj Hout).
Defined.

(** The 503 of a service that does not answer comes from [requests]. *)
Lemma call_gemini_api_503_only_when_requests_raises_example :
  outcome (call_gemini_api Stub.timeout_env (lit "Hi") false)
  = Raise (HTTPException 503
             (lit "Could not connect to AI service: Read timed out."))
  /\ exists key,
       GEMINI_API_KEY Stub.timeout_env = Some key /\ key <> []
       /\ match network Stub.timeout_env (gemini_request key (lit "Hi") false) with
          | PostRaises _ _ => True
          | PostReturns r =>
              (400 <= status_code r < 600)%Z
              \/ json_loads Stub.timeout_env (text r) = Undecodable
          end.
Proof.
  assert (H : outcome (call_gemini_api Stub.timeout_env (lit "Hi") false)
              = Raise (HTTPException 503
                         (lit "Could not connect to AI service: Read timed out.")))
    by (vm_compute; reflexivity).
  split; [exact H|].
  exact (call_gemini_api_503_only_when_requests_raises Stub.timeout_env
           (lit "Hi") _ false H).
Defined.
